(** * Snore detection: the real-time loop and its feature pipeline

    A shallow embedding of the Python sources

      - src/utils.py                        (normalize_features, extract_mfcc, ...)
      - src/preprocess.py                   (preprocess_file)
      - src/realtime/vibration_control.py   (the actuator controllers)
      - src/realtime/realtime_detection.py  (RealtimeSnoreDetector)
      - src/realtime/realtime_main.py, start_monitoring.py (entry points)

    Conventions of the embedding.

      - A Python float is a value of [npfloat]: an exact rational or one of
        the IEEE special values.  Rounding and signed zeros are not modelled;
        what is modelled is where NaN and the infinities come from.
      - A call that may raise returns a [res]; code that mutates [self] or
        prints is a function of a state, [M S A := S -> res A * S].
      - External collaborators (librosa, keras, pyaudio, the GPIO and serial
        drivers, the file system) are fields of [Env]; the constants of
        config.py are fields of [Config].
      - Every external call that matters leaves an [event] in the trace of
        the [world], most recent first. *)

From Stdlib Require Import String Ascii.
From Stdlib Require Import ZArith QArith Qround Bool Lia List.
Import ListNotations.

Set Implicit Arguments.
Close Scope Q_scope.
Open Scope string_scope.
Open Scope list_scope.
Open Scope nat_scope.

(** ** Python exceptions and results *)

Inductive exn : Type :=
| Exception (what : string)        (* any other subclass of Exception *)
| ValueError (what : string)
| ImportError (what : string)
| RuntimeError (what : string)
| KeyboardInterrupt                (* BaseException, not Exception *)
| SystemExit (code : Z).           (* BaseException, not Exception *)

(** [isinstance(e, Exception)]: what [except Exception] catches. *)
Definition isinstance_Exception (e : exn) : bool :=
  match e with
  | KeyboardInterrupt | SystemExit _ => false
  | _ => true
  end.

(** [isinstance(e, ImportError)]: what [except ImportError] catches. *)
Definition isinstance_ImportError (e : exn) : bool :=
  match e with
  | ImportError _ => true
  | _ => false
  end.

Inductive res (A : Type) : Type :=
| Ret (a : A)
| Raise (e : exn).
Arguments Ret {A} a.
Arguments Raise {A} e.

(** ** Floats *)

Module NumPy.

Inductive npfloat : Type :=
| Fin (q : Q)
| PInf
| NInf
| NaN.

Definition zero : npfloat := Fin 0%Q.
Definition one : npfloat := Fin 1%Q.

Definition isfinite (x : npfloat) : bool :=
  match x with Fin _ => true | _ => false end.

Definition Qltb (a b : Q) : bool :=
  match (a ?= b)%Q with Lt => true | _ => false end.

Definition neg (x : npfloat) : npfloat :=
  match x with
  | Fin q => Fin (Qred (- q)%Q)
  | PInf => NInf
  | NInf => PInf
  | NaN => NaN
  end.

Definition add (x y : npfloat) : npfloat :=
  match x, y with
  | NaN, _ | _, NaN => NaN
  | PInf, NInf | NInf, PInf => NaN
  | PInf, _ | _, PInf => PInf
  | NInf, _ | _, NInf => NInf
  | Fin a, Fin b => Fin (Qred (a + b)%Q)
  end.

Definition sub (x y : npfloat) : npfloat := add x (neg y).

(** The infinity with the sign of [a]; [inf * 0] is NaN. *)
Definition signed_inf (positive : bool) (a : Q) : npfloat :=
  match (a ?= 0)%Q with
  | Eq => NaN
  | Gt => if positive then PInf else NInf
  | Lt => if positive then NInf else PInf
  end.

Definition mul (x y : npfloat) : npfloat :=
  match x, y with
  | NaN, _ | _, NaN => NaN
  | Fin a, Fin b => Fin (Qred (a * b)%Q)
  | PInf, Fin a | Fin a, PInf => signed_inf true a
  | NInf, Fin a | Fin a, NInf => signed_inf false a
  | PInf, PInf | NInf, NInf => PInf
  | PInf, NInf | NInf, PInf => NInf
  end.

(** numpy's true division: [x / 0] does not raise, it gives NaN for
    [0 / 0] and an infinity otherwise (with a RuntimeWarning). *)
Definition div (x y : npfloat) : npfloat :=
  match x, y with
  | NaN, _ | _, NaN => NaN
  | Fin a, Fin b =>
      match (b ?= 0)%Q with
      | Eq => signed_inf true a
      | _ => Fin (Qred (a / b)%Q)
      end
  | Fin _, PInf | Fin _, NInf => Fin 0%Q
  | PInf, Fin b => if Qltb b 0%Q then NInf else PInf
  | NInf, Fin b => if Qltb b 0%Q then PInf else NInf
  | _, _ => NaN
  end.

(** [x < y] and [x > y]: False as soon as one side is NaN. *)
Definition ltb (x y : npfloat) : bool :=
  match x, y with
  | NaN, _ | _, NaN => false
  | Fin a, Fin b => Qltb a b
  | NInf, NInf | PInf, _ => false
  | NInf, _ => true
  | Fin _, PInf => true
  | Fin _, NInf => false
  end.

Definition gtb (x y : npfloat) : bool := ltb y x.

(** Square root of a rational to 32 binary digits after the point,
    rounded down: exact at 0, positive on positives. *)
Definition sqrt_scale : Z := (2 ^ 32)%Z.

Definition Qsqrt (q : Q) : Q :=
  Qred (Qmake (Z.sqrt (Qnum q * Zpos (Qden q) * (sqrt_scale * sqrt_scale))%Z)
              (Qden q * Z.to_pos sqrt_scale)%positive).

Definition sqrt (x : npfloat) : npfloat :=
  match x with
  | Fin q => if Qltb q 0%Q then NaN else Fin (Qsqrt q)
  | PInf => PInf
  | NInf | NaN => NaN
  end.

(** [int(x)] on a finite float: truncation towards zero. *)
Definition py_int (q : Q) : Z := Z.quot (Qnum q) (Zpos (Qden q)).

(** *** Two-dimensional arrays

    [shape = (length rows, ncols)]; the array is well formed when every
    row has [ncols] entries. *)

Record ndarray : Type := mk_ndarray {
  ncols : nat;
  rows : list (list npfloat)
}.

Definition nrows (a : ndarray) : nat := length (rows a).

Definition wf (a : ndarray) : Prop :=
  Forall (fun r => length r = ncols a) (rows a).

Definition wfb (a : ndarray) : bool :=
  forallb (fun r => Nat.eqb (length r) (ncols a)) (rows a).

(** [a[i][j]], with NaN standing for an index out of range. *)
Definition entry (a : ndarray) (i j : nat) : npfloat :=
  nth j (nth i (rows a) []) NaN.

Definition flat (a : ndarray) : list npfloat := concat (rows a).

Definition map_array (f : npfloat -> npfloat) (a : ndarray) : ndarray :=
  {| ncols := ncols a; rows := map (map f) (rows a) |}.

Definition sum (l : list npfloat) : npfloat := fold_left add l zero.

(** [np.mean] of the flattened data; the mean of nothing is [0 / 0]. *)
Definition mean_list (l : list npfloat) : npfloat :=
  div (sum l) (Fin (inject_Z (Z.of_nat (length l)))).

Definition mean (a : ndarray) : npfloat := mean_list (flat a).

(** [np.std]: [sqrt(mean(abs(x - x.mean())**2))]. *)
Definition std (a : ndarray) : npfloat :=
  let m := mean a in
  sqrt (mean_list (map (fun x => let d := sub x m in mul d d) (flat a))).

(** [np.concatenate((a, b), axis=0)]. *)
Definition concatenate0 (a b : ndarray) : res ndarray :=
  if Nat.eqb (ncols a) (ncols b)
  then Ret {| ncols := ncols a; rows := rows a ++ rows b |}
  else Raise (ValueError "all the input array dimensions except for the concatenation axis must match exactly").

(** [np.pad(a, ((0, 0), (0, w)), mode='constant')]. *)
Definition pad_cols_right (a : ndarray) (w : nat) : ndarray :=
  {| ncols := ncols a + w;
     rows := map (fun r => r ++ repeat zero w) (rows a) |}.

(** [a[:, :n]]. *)
Definition take_cols (a : ndarray) (n : nat) : ndarray :=
  {| ncols := Nat.min n (ncols a);
     rows := map (firstn n) (rows a) |}.

(** [np.pad(v, (0, w), mode='constant')] on a vector. *)
Definition pad_right (v : list npfloat) (w : nat) : list npfloat :=
  v ++ repeat zero w.

(** [np.pad(v, (w, 0), mode='constant')] on a vector. *)
Definition pad_left (v : list npfloat) (w : nat) : list npfloat :=
  repeat zero w ++ v.

(** [np.expand_dims(a, axis=0)]: shape [(1, rows, cols)]. *)
Definition expand_dims0 (a : ndarray) : list ndarray := [a].

End NumPy.
Import NumPy.

(** [l[start:]] with Python's treatment of a negative or too large start. *)
Definition py_slice_from {A} (start : Z) (l : list A) : list A :=
  let len := Z.of_nat (length l) in
  let s := if (start <? 0)%Z then Z.max 0 (start + len) else Z.min start len in
  skipn (Z.to_nat s) l.

(** [deque(maxlen=m).extend(xs)]: append on the right, drop on the left. *)
Definition deque_extend {A} (maxlen : nat) (buf xs : list A) : list A :=
  let l := buf ++ xs in
  skipn (length l - maxlen) l.

(** ** The constants of config.py

    config.py is not among the sources; its constants are parameters. *)

Record Config : Type := {
  SR : nat;
  N_MFCC : nat;
  N_MELS : nat;
  TIME_STEPS : nat
}.

(** ** What the program prints, and what it asks of the outside *)

Record device_info : Type := {
  maxInputChannels : Z;
  name : string;
  defaultSampleRate : Q
}.

Inductive serial_command : Type :=
| V_command (milliseconds level : Z)   (* "V,<ms>,<level>\n" *)
| S_command.                           (* "S\n" *)

Inductive message : Type :=
(* realtime_detection.py *)
| msg_already_running
| msg_input_devices
| msg_device (index : nat) (info : device_info)
| msg_opening_stream (rate : nat)
| msg_cannot_open_stream (e : exn)
| msg_check_microphone
| msg_stream_started
| msg_monitoring_banner
| msg_status (frame_count : nat) (prediction : npfloat) (is_snore : bool)
             (snore_count snore_threshold_count : Z)
| msg_vibration_triggered (prediction : npfloat)
| msg_audio_processing_error (e : exn)
| msg_interrupted_by_user
| msg_runtime_error (e : exn)
| msg_detection_stopped
| msg_snore_detected                    (* vibration_alert *)
| msg_model_file_missing (path : string)
| msg_train_model_first
(* vibration_control.py *)
| msg_rpi_initialised (pin : Z)
| msg_no_rpi_gpio_simulating
| msg_simulated_vibration (duration intensity : Q)
| msg_vibration_control_error (e : exn)
| msg_arduino_initialised (port : string)
| msg_no_pyserial_simulating
| msg_cannot_reach_arduino_simulating (e : exn)
| msg_simulated_alert (duration intensity : Q)
(* realtime_main.py and start_monitoring.py *)
| msg_initialising_controller (selector : string)
| msg_loading_model (path : string)
| msg_system_started
| msg_shutting_down
| msg_system_closed
| msg_quick_start_banner
| msg_model_found (path : string)
| msg_quick_start_configuration
| msg_monitoring_stopped
(* preprocess.py *)
| msg_failed_to_extract (file : string).

Inductive event : Type :=
| Print (m : message)
| Sleep (seconds : Q)
| LoadModel (path : string)
| ModelPredict
| PyAudioInit
| StreamOpen (rate : nat) (frames_per_buffer : Z)
| StreamStart
| StreamRead (frames : Z)
| StreamStop
| StreamClose
| PyAudioTerminate
| VibrationCallback
| GpioSetup (pin : Z)
| PwmDutyCycle (duty_cycle : Z)
| SerialOpen (port : string) (baudrate : Z)
| SerialWrite (c : serial_command).

(** The controller objects of vibration_control.py.  [GPIO], [pwm] and
    [serial] are [true] when the attribute holds the driver object and
    [false] when it is [None]. *)
Inductive controller : Type :=
| RaspberryPiVibrationController (is_vibrating : bool) (pin : Z) (GPIO pwm : bool)
| ArduinoVibrationController (is_vibrating : bool) (port : string) (baudrate : Z)
                             (serial : bool)
| SimulatedVibrationController (is_vibrating : bool).

(** The loaded classifier: [model.predict(features, verbose=0)[0][0]]. *)
Definition keras_model : Type := list ndarray -> res npfloat.

(** A driver call made while vibrating either succeeds or fails with an
    ordinary exception carrying a message. *)
Definition driver_result : Type := option string.

Record Env : Type := {
  (* os.path *)
  os_path_exists : string -> bool;
  os_path_isabs : string -> bool;
  os_path_abspath : string -> string;
  default_model_path : string;      (* models/final_snore_detection_model.h5 under dirname(src_dir) *)
  module_model_path : string;       (* the same under dirname(dirname(src_dir)) *)
  script_dir : string;              (* os.path.dirname(__file__) *)
  (* tensorflow.keras *)
  load_model : string -> res keras_model;
  (* librosa *)
  librosa_load : string -> nat -> res (list npfloat);
  librosa_mfcc : list npfloat -> nat -> nat -> res ndarray;
  librosa_melspectrogram : list npfloat -> nat -> nat -> res ndarray;
  (* pyaudio *)
  pyaudio_PyAudio : res unit;
  pyaudio_devices : res (list (res device_info));
  pyaudio_open : res unit;
  stream_start_stream : res unit;
  stream_read : nat -> res (list npfloat);   (* the k-th read since the world began *)
  stream_stop_stream : res unit;
  stream_close : res unit;
  pyaudio_terminate : res unit;
  (* platform and the drivers *)
  platform_system : string;
  read_proc_cpuinfo : res string;
  import_RPi_GPIO : res unit;
  GPIO_setmode : res unit;
  GPIO_setup : Z -> res unit;
  GPIO_PWM : Z -> res unit;
  pwm_start : res unit;
  pwm_ChangeDutyCycle : Z -> driver_result;
  import_serial : res unit;
  serial_Serial : string -> Z -> res unit;
  serial_write : serial_command -> driver_result
}.

(** The world outside the detector object: the trace (most recent event
    first), how many reads the capture stream has served, and the one
    controller object an entry point creates and its callback closes over. *)
Record world : Type := {
  trace : list event;
  reads : nat;
  vibration_controller : option controller
}.

Definition initial_world : world :=
  {| trace := []; reads := 0; vibration_controller := None |}.

(** ** A state and exception monad *)

Definition M (S A : Type) : Type := S -> res A * S.

Definition ret {S A} (a : A) : M S A := fun s => (Ret a, s).

Definition raise {S A} (e : exn) : M S A := fun s => (Raise e, s).

Definition bind {S A B} (m : M S A) (k : A -> M S B) : M S B :=
  fun s =>
    match m s with
    | (Ret a, s') => k a s'
    | (Raise e, s') => (Raise e, s')
    end.

Declare Scope monad_scope.
Delimit Scope monad_scope with monad.
Notation "x <- m ;; k" := (bind m (fun x => k))
  (at level 61, m at next level, right associativity) : monad_scope.
Notation "m ;; k" := (bind m (fun _ => k))
  (at level 61, right associativity) : monad_scope.
Open Scope monad_scope.

Definition lift {S A} (r : res A) : M S A := fun s => (r, s).

Definition modify {S} (f : S -> S) : M S unit := fun s => (Ret tt, f s).

(** [try: body  except <class>: handler]: [catches e] says whether the
    clause matches; a second exception raised by the handler propagates. *)
Definition try_except {S A} (body : M S A) (catches : exn -> bool)
    (handler : exn -> M S A) : M S A :=
  fun s =>
    match body s with
    | (Ret a, s') => (Ret a, s')
    | (Raise e, s') => if catches e then handler e s' else (Raise e, s')
    end.

(** [try: body  finally: cleanup]. *)
Definition try_finally {S A} (body : M S A) (cleanup : M S unit) : M S A :=
  fun s =>
    match body s with
    | (r, s') =>
        match cleanup s' with
        | (Ret _, s'') => (r, s'')
        | (Raise e, s'') => (Raise e, s'')
        end
    end.

(** Effects on the world. *)
Definition emit (e : event) : M world unit :=
  modify (fun w => {| trace := e :: trace w; reads := reads w;
                      vibration_controller := vibration_controller w |}).

Definition print (m : message) : M world unit := emit (Print m).

(** [time.sleep(d)] raises ValueError on a negative length. *)
Definition time_sleep (d : Q) : M world unit :=
  if Qltb d 0%Q then raise (ValueError "sleep length must be non-negative")
  else emit (Sleep d).

(** An external call: leave the event, then return or raise as the
    environment says. *)
Definition call {A} (e : event) (r : res A) : M world A :=
  emit e ;; lift r.

Definition driver_call (e : event) (r : driver_result) : M world unit :=
  emit e ;;
  match r with
  | None => ret tt
  | Some what => raise (Exception what)
  end.

Definition set_controller (c : controller) : M world unit :=
  modify (fun w => {| trace := trace w; reads := reads w;
                      vibration_controller := Some c |}).

(** The block that brings the time axis to [TIME_STEPS] columns; it is
    written out twice in the sources, in [preprocess_file]
    (preprocess.py, lines 33-41) and in [extract_features]
    (realtime_detection.py, lines 90-100). *)
Definition adjust_time_steps (cfg : Config) (normalized_features : ndarray)
    : ndarray :=
  if negb (Nat.eqb (ncols normalized_features) (TIME_STEPS cfg)) then
    if Nat.ltb (ncols normalized_features) (TIME_STEPS cfg) then
      let pad_width := TIME_STEPS cfg - ncols normalized_features in
      pad_cols_right normalized_features pad_width
    else
      take_cols normalized_features (TIME_STEPS cfg)
  else normalized_features.

(** ** src/utils.py *)

Module Utils.
Section WithEnv.
Variable env : Env.

Definition extract_mfcc (file_path : option string) (sr n_mfcc : nat)
    (y : option (list npfloat)) : res ndarray :=
  match y, file_path with
  | Some y, _ => librosa_mfcc env y sr n_mfcc
  | None, Some file =>
      match librosa_load env file sr with
      | Ret y => librosa_mfcc env y sr n_mfcc
      | Raise e => Raise e
      end
  | None, None => Raise (ValueError "Either file_path or y must be provided")
  end.

(** [librosa.feature.melspectrogram] is called without [n_mels]:
    librosa's default, 128 bands. *)
Definition default_n_mels : nat := 128.

Definition extract_mel_spectrogram (file_path : option string) (sr : nat)
    (y : option (list npfloat)) : res ndarray :=
  match y, file_path with
  | Some y, _ => librosa_melspectrogram env y sr default_n_mels
  | None, Some file =>
      match librosa_load env file sr with
      | Ret y => librosa_melspectrogram env y sr default_n_mels
      | Raise e => Raise e
      end
  | None, None => Raise (ValueError "Either file_path or y must be provided")
  end.

End WithEnv.

(** [(features - np.mean(features)) / np.std(features)], unguarded. *)
Definition normalize_features (features : ndarray) : ndarray :=
  let m := mean features in
  let s := std features in
  map_array (fun x => div (sub x m) s) features.

End Utils.

(** ** src/preprocess.py *)

Module Preprocess.
Section WithEnv.
Variable cfg : Config.
Variable env : Env.

(** The two extractors never return [None] (they return an array or
    raise), so the [is None] test of the source is never taken and the
    function returns the pair or propagates the exception. *)
Definition preprocess_file (file : string) (label : Z) : res (ndarray * Z) :=
  match Utils.extract_mfcc env (Some file) (SR cfg) (N_MFCC cfg) None with
  | Raise e => Raise e
  | Ret mfcc_features =>
  match Utils.extract_mel_spectrogram env (Some file) (SR cfg) None with
  | Raise e => Raise e
  | Ret mel_features =>
  match concatenate0 mfcc_features mel_features with
  | Raise e => Raise e
  | Ret combined_features =>
      let normalized_features := Utils.normalize_features combined_features in
      let normalized_features := adjust_time_steps cfg normalized_features in
      Ret (normalized_features, label)
  end end end.

End WithEnv.
End Preprocess.

(** ** src/realtime/vibration_control.py *)

Module VibrationControl.

(** ['needle' in haystack] and [str.lower]. *)
Fixpoint contains (needle haystack : string) : bool :=
  if String.prefix needle haystack then true
  else match haystack with
       | EmptyString => false
       | String _ rest => contains needle rest
       end.

Definition lower_ascii (c : ascii) : ascii :=
  let n := nat_of_ascii c in
  if andb (Nat.leb 65 n) (Nat.leb n 90) then ascii_of_nat (n + 32) else c.

Fixpoint lower (s : string) : string :=
  match s with
  | EmptyString => EmptyString
  | String c rest => String (lower_ascii c) (lower rest)
  end.

Definition except_ImportError_or_Exception (e : exn) : bool :=
  isinstance_ImportError e || isinstance_Exception e.

Section WithEnv.
Variable env : Env.

(** [RaspberryPiVibrationController.__init__]: only ImportError is
    caught. *)
Definition RaspberryPi_init (pin : Z) : M world controller :=
  try_except
    (lift (import_RPi_GPIO env) ;;
     lift (GPIO_setmode env) ;;
     call (GpioSetup pin) (GPIO_setup env pin) ;;
     lift (GPIO_PWM env pin) ;;
     lift (pwm_start env) ;;
     print (msg_rpi_initialised pin) ;;
     ret (RaspberryPiVibrationController false pin true true))
    isinstance_ImportError
    (fun _ =>
       print msg_no_rpi_gpio_simulating ;;
       ret (RaspberryPiVibrationController false pin false false)).

(** [ArduinoVibrationController.__init__]: ImportError, then any
    Exception; [self.serial] stays [None] on both. *)
Definition Arduino_init (port : string) (baudrate : Z) : M world controller :=
  try_except
    (lift (import_serial env) ;;
     call (SerialOpen port baudrate) (serial_Serial env port baudrate) ;;
     time_sleep 2%Q ;;
     print (msg_arduino_initialised port) ;;
     ret (ArduinoVibrationController false port baudrate true))
    except_ImportError_or_Exception
    (fun e =>
       (if isinstance_ImportError e
        then print msg_no_pyserial_simulating
        else print (msg_cannot_reach_arduino_simulating e)) ;;
       ret (ArduinoVibrationController false port baudrate false)).

(** [VibrationController.__init__] is all the simulated variant runs. *)
Definition Simulated_init : M world controller :=
  ret (SimulatedVibrationController false).

(** [create_vibration_controller(controller_type)]. *)
Definition create_vibration_controller (controller_type : string)
    : M world controller :=
  let controller_type :=
    if String.eqb controller_type "auto" then
      let system := lower (platform_system env) in
      if contains "linux" system then
        match read_proc_cpuinfo env with
        | Ret text =>
            if contains "Raspberry Pi" text then "raspberrypi" else "simulated"
        | Raise _ => "simulated"          (* bare except *)
        end
      else "simulated"
    else controller_type in
  if String.eqb controller_type "raspberrypi" then RaspberryPi_init 18%Z
  else if String.eqb controller_type "arduino" then Arduino_init "COM3" 9600%Z
  else Simulated_init.

Definition set_is_vibrating (b : bool) (c : controller) : controller :=
  match c with
  | RaspberryPiVibrationController _ pin g p => RaspberryPiVibrationController b pin g p
  | ArduinoVibrationController _ port baud s => ArduinoVibrationController b port baud s
  | SimulatedVibrationController _ => SimulatedVibrationController b
  end.

(** The methods act on the controller object held by the world. *)
Definition self_controller : M world controller :=
  fun w =>
    match vibration_controller w with
    | Some c => (Ret c, w)
    | None => (Raise (Exception "name 'vibration_controller' is not defined"), w)
    end.

Definition mark_vibrating (b : bool) : M world unit :=
  c <- self_controller ;; set_controller (set_is_vibrating b c).

Definition stop : M world unit :=
  c <- self_controller ;;
  match c with
  | RaspberryPiVibrationController _ _ _ pwm =>
      mark_vibrating false ;;
      if pwm then driver_call (PwmDutyCycle 0%Z) (pwm_ChangeDutyCycle env 0%Z)
      else ret tt
  | ArduinoVibrationController _ _ _ serial =>
      mark_vibrating false ;;
      if serial then driver_call (SerialWrite S_command) (serial_write env S_command)
      else ret tt
  | SimulatedVibrationController _ => ret tt
  end.

Definition vibrate (duration intensity : Q) : M world unit :=
  c <- self_controller ;;
  match c with
  | RaspberryPiVibrationController _ _ GPIO _ =>
      if negb GPIO then
        print (msg_simulated_vibration duration intensity) ;;
        time_sleep duration
      else
        try_except
          (mark_vibrating true ;;
           let duty_cycle := py_int (intensity * 100)%Q in
           driver_call (PwmDutyCycle duty_cycle) (pwm_ChangeDutyCycle env duty_cycle) ;;
           time_sleep duration ;;
           stop)
          isinstance_Exception
          (fun e => print (msg_vibration_control_error e))
  | ArduinoVibrationController _ _ _ serial =>
      if negb serial then
        print (msg_simulated_vibration duration intensity) ;;
        time_sleep duration
      else
        try_except
          (mark_vibrating true ;;
           let command := V_command (py_int (duration * 1000)%Q) (py_int (intensity * 255)%Q) in
           driver_call (SerialWrite command) (serial_write env command) ;;
           time_sleep duration ;;
           stop)
          isinstance_Exception
          (fun e => print (msg_vibration_control_error e))
  | SimulatedVibrationController _ =>
      print (msg_simulated_alert duration intensity) ;;
      time_sleep duration
  end.

End WithEnv.
End VibrationControl.

(** ** src/realtime/realtime_detection.py *)

Module RealtimeDetection.

(** The callables the entry points pass as [vibration_callback]:
    [vibration_alert] of this module, and the closure [trigger_vibration]
    of realtime_main.py and start_monitoring.py, which calls
    [vibration_controller.vibrate(duration, intensity)]. *)
Inductive callback : Type :=
| vibration_alert
| trigger_vibration (duration intensity : Q).

Record Detector : Type := {
  model : keras_model;
  chunk_duration : Q;
  overlap : Q;
  vibration_callback : option callback;
  threshold : npfloat;
  chunk_size : Z;
  hop_size : Z;
  audio_buffer : list npfloat;
  audio_buffer_maxlen : nat;
  is_running : bool;
  audio_stream : bool;               (* [false] is [None] *)
  pyaudio_instance : bool;           (* [false] is [None] *)
  snore_count : Z;
  snore_threshold_count : Z
}.

Definition set_snore_count (n : Z) (d : Detector) : Detector :=
  {| model := model d; chunk_duration := chunk_duration d; overlap := overlap d;
     vibration_callback := vibration_callback d; threshold := threshold d;
     chunk_size := chunk_size d; hop_size := hop_size d;
     audio_buffer := audio_buffer d; audio_buffer_maxlen := audio_buffer_maxlen d;
     is_running := is_running d; audio_stream := audio_stream d;
     pyaudio_instance := pyaudio_instance d;
     snore_count := n; snore_threshold_count := snore_threshold_count d |}.

Definition set_snore_threshold_count (n : Z) (d : Detector) : Detector :=
  {| model := model d; chunk_duration := chunk_duration d; overlap := overlap d;
     vibration_callback := vibration_callback d; threshold := threshold d;
     chunk_size := chunk_size d; hop_size := hop_size d;
     audio_buffer := audio_buffer d; audio_buffer_maxlen := audio_buffer_maxlen d;
     is_running := is_running d; audio_stream := audio_stream d;
     pyaudio_instance := pyaudio_instance d;
     snore_count := snore_count d; snore_threshold_count := n |}.

Definition set_is_running (b : bool) (d : Detector) : Detector :=
  {| model := model d; chunk_duration := chunk_duration d; overlap := overlap d;
     vibration_callback := vibration_callback d; threshold := threshold d;
     chunk_size := chunk_size d; hop_size := hop_size d;
     audio_buffer := audio_buffer d; audio_buffer_maxlen := audio_buffer_maxlen d;
     is_running := b; audio_stream := audio_stream d;
     pyaudio_instance := pyaudio_instance d;
     snore_count := snore_count d; snore_threshold_count := snore_threshold_count d |}.

Definition set_audio_stream (b : bool) (d : Detector) : Detector :=
  {| model := model d; chunk_duration := chunk_duration d; overlap := overlap d;
     vibration_callback := vibration_callback d; threshold := threshold d;
     chunk_size := chunk_size d; hop_size := hop_size d;
     audio_buffer := audio_buffer d; audio_buffer_maxlen := audio_buffer_maxlen d;
     is_running := is_running d; audio_stream := b;
     pyaudio_instance := pyaudio_instance d;
     snore_count := snore_count d; snore_threshold_count := snore_threshold_count d |}.

Definition set_pyaudio_instance (b : bool) (d : Detector) : Detector :=
  {| model := model d; chunk_duration := chunk_duration d; overlap := overlap d;
     vibration_callback := vibration_callback d; threshold := threshold d;
     chunk_size := chunk_size d; hop_size := hop_size d;
     audio_buffer := audio_buffer d; audio_buffer_maxlen := audio_buffer_maxlen d;
     is_running := is_running d; audio_stream := audio_stream d;
     pyaudio_instance := b;
     snore_count := snore_count d; snore_threshold_count := snore_threshold_count d |}.

Definition set_audio_buffer (b : list npfloat) (d : Detector) : Detector :=
  {| model := model d; chunk_duration := chunk_duration d; overlap := overlap d;
     vibration_callback := vibration_callback d; threshold := threshold d;
     chunk_size := chunk_size d; hop_size := hop_size d;
     audio_buffer := b; audio_buffer_maxlen := audio_buffer_maxlen d;
     is_running := is_running d; audio_stream := audio_stream d;
     pyaudio_instance := pyaudio_instance d;
     snore_count := snore_count d; snore_threshold_count := snore_threshold_count d |}.

(** Line 140: [prediction < (1 - self.threshold)]. *)
Definition is_snore (threshold prediction : npfloat) : bool :=
  ltb prediction (sub one threshold).

(** A method runs on the detector object and the world. *)
Definition DS : Type := (Detector * world)%type.

Definition self : M DS Detector := fun s => (Ret (fst s), s).

Definition update (f : Detector -> Detector) : M DS unit :=
  modify (fun s : DS => (f (fst s), snd s)).

Definition io {A} (m : M world A) : M DS A :=
  fun s => match m (snd s) with (r, w) => (r, (fst s, w)) end.

Section WithEnv.
Variable cfg : Config.
Variable env : Env.

Definition call_callback (cb : callback) : M world unit :=
  match cb with
  | vibration_alert => print msg_snore_detected
  | trigger_vibration duration intensity =>
      VibrationControl.vibrate env duration intensity
  end.

(** [RealtimeSnoreDetector.__init__]. *)
Definition init (model_path : string) (chunk_duration overlap : Q)
    (vibration_callback : option callback) (threshold : npfloat)
    : M world Detector :=
  model <- call (LoadModel model_path) (load_model env model_path) ;;
  ret {| model := model;
         chunk_duration := chunk_duration;
         overlap := overlap;
         vibration_callback := vibration_callback;
         threshold := threshold;
         chunk_size := py_int (inject_Z (Z.of_nat (SR cfg)) * chunk_duration)%Q;
         hop_size := py_int (inject_Z (Z.of_nat (SR cfg)) * chunk_duration
                             * (1 - overlap))%Q;
         audio_buffer := [];
         audio_buffer_maxlen := SR cfg * 3;
         is_running := false;
         audio_stream := false;
         pyaudio_instance := false;
         snore_count := 0%Z;
         snore_threshold_count := 3%Z |}.

(** Lines 82-88 of the source: the guarded normalisation inside
    [extract_features]. *)
Definition normalize (combined_features : ndarray) : ndarray :=
  let mean := NumPy.mean combined_features in
  let std := NumPy.std combined_features in
  if gtb std zero
  then map_array (fun x => div (sub x mean) std) combined_features
  else combined_features.

Definition extract_features (audio_data : list npfloat) : res (list ndarray) :=
  match librosa_mfcc env audio_data (SR cfg) (N_MFCC cfg) with
  | Raise e => Raise e
  | Ret mfcc_features =>
  match librosa_melspectrogram env audio_data (SR cfg) (N_MELS cfg) with
  | Raise e => Raise e
  | Ret mel_features =>
  match concatenate0 mfcc_features mel_features with
  | Raise e => Raise e
  | Ret combined_features =>
      let normalized_features := normalize combined_features in
      let normalized_features := adjust_time_steps cfg normalized_features in
      Ret (expand_dims0 normalized_features)
  end end end.

Definition predict (audio_data : list npfloat) : M DS npfloat :=
  d <- self ;;
  features <- lift (extract_features audio_data) ;;
  io (call ModelPredict (model d features)).

(** Lines 136-154 of the source: what [process_audio_chunk] does once
    the prediction is known. *)
Definition process_prediction (prediction : npfloat) : M DS (npfloat * bool) :=
  d <- self ;;
  let is_snore := is_snore (threshold d) prediction in
  (if is_snore
   then update (fun d => set_snore_count (snore_count d + 1)%Z d)
   else update (set_snore_count 0%Z)) ;;
  d <- self ;;
  (if (snore_count d >=? snore_threshold_count d)%Z then
     match vibration_callback d with
     | Some cb => io (emit VibrationCallback ;; call_callback cb)
     | None => ret tt
     end ;;
     update (set_snore_count 0%Z)
   else ret tt) ;;
  ret (prediction, is_snore).

(** The padding at the head of [process_audio_chunk]. *)
Definition pad_chunk (d : Detector) (audio_chunk : list npfloat) : list npfloat :=
  if (Z.of_nat (length audio_chunk) <? chunk_size d)%Z
  then pad_right audio_chunk
         (Z.to_nat (chunk_size d - Z.of_nat (length audio_chunk)))
  else audio_chunk.

Definition process_audio_chunk (audio_chunk : list npfloat)
    : M DS (npfloat * bool) :=
  d <- self ;;
  let audio_chunk := pad_chunk d audio_chunk in
  prediction <- predict audio_chunk ;;
  process_prediction prediction.

(** [self.audio_stream.read(self.hop_size, exception_on_overflow=False)]
    followed by [np.frombuffer]. *)
Definition read_stream (frames : Z) : M world (list npfloat) :=
  fun w =>
    (stream_read env (reads w),
     {| trace := StreamRead frames :: trace w;
        reads := S (reads w);
        vibration_controller := vibration_controller w |}).

(** [np.array(list(self.audio_buffer)[-self.chunk_size:])]. *)
Definition latest_window (d : Detector) : list npfloat :=
  py_slice_from (- chunk_size d)%Z (audio_buffer d).

(** The body of the inner [try] of the loop; the value is the local
    [frame_count]. *)
Definition loop_try (frame_count : nat) : M DS nat :=
  d <- self ;;
  audio_data <- io (read_stream (hop_size d)) ;;
  update (fun d => set_audio_buffer
                     (deque_extend (audio_buffer_maxlen d) (audio_buffer d) audio_data) d) ;;
  d <- self ;;
  if (Z.of_nat (length (audio_buffer d)) >=? chunk_size d)%Z then
    p <- process_audio_chunk (latest_window d) ;;
    let frame_count := S frame_count in
    d <- self ;;
    io (print (msg_status frame_count (fst p) (snd p)
                          (snore_count d) (snore_threshold_count d))) ;;
    (if (snore_count d =? snore_threshold_count d)%Z
     then io (print (msg_vibration_triggered (fst p)))
     else ret tt) ;;
    ret frame_count
  else ret frame_count.

(** One turn of [while self.is_running]: the inner [try], its
    [except Exception ... continue], and the short sleep the [continue]
    skips. *)
Definition loop_iteration (frame_count : nat) : M DS nat :=
  try_except
    (frame_count <- loop_try frame_count ;;
     io (time_sleep (1 # 100)) ;;
     ret frame_count)
    isinstance_Exception
    (fun e =>
       io (print (msg_audio_processing_error e)) ;;
       io (time_sleep (1 # 10)) ;;
       ret frame_count).

(** [while self.is_running: ...]; [None] when the fuel runs out with the
    loop still turning. *)
Fixpoint detection_loop (fuel : nat) (frame_count : nat) (s : DS)
    : option (res unit * DS) :=
  match fuel with
  | O => None
  | S fuel =>
      if is_running (fst s) then
        match loop_iteration frame_count s with
        | (Ret frame_count, s') => detection_loop fuel frame_count s'
        | (Raise e, s') => Some (Raise e, s')
        end
      else Some (Ret tt, s)
  end.

Definition stop_detection : M DS unit :=
  update (set_is_running false) ;;
  d <- self ;;
  (if audio_stream d then
     io (call StreamStop (stream_stop_stream env)) ;;
     io (call StreamClose (stream_close env))
   else ret tt) ;;
  (if pyaudio_instance d then io (call PyAudioTerminate (pyaudio_terminate env))
   else ret tt) ;;
  io (print msg_detection_stopped).

(** The device listing, inside [try: ... except: pass]. *)
Fixpoint print_devices (i : nat) (infos : list (res device_info)) : M world unit :=
  match infos with
  | [] => ret tt
  | Ret info :: rest =>
      (if (maxInputChannels info >? 0)%Z then print (msg_device i info) else ret tt) ;;
      print_devices (S i) rest
  | Raise e :: _ => raise e
  end.

Definition list_devices : M world unit :=
  try_except
    (infos <- lift (pyaudio_devices env) ;; print_devices 0 infos)
    (fun _ => true)
    (fun _ => ret tt).

(** What follows the loop: the two [except] clauses and the [finally]. *)
Definition after_loop (r : res unit) : M DS unit :=
  try_finally
    (match r with
     | Ret _ => ret tt
     | Raise KeyboardInterrupt => io (print msg_interrupted_by_user)
     | Raise e =>
         if isinstance_Exception e then io (print (msg_runtime_error e))
         else raise e
     end)
    stop_detection.

Definition start_detection (fuel : nat) (s : DS) : option (res unit * DS) :=
  if is_running (fst s) then
    Some (io (print msg_already_running) s)
  else
    match
      (update (set_is_running true) ;;
       io (call PyAudioInit (pyaudio_PyAudio env)) ;;
       update (set_pyaudio_instance true) ;;
       io (print msg_input_devices) ;;
       io list_devices ;;
       io (print (msg_opening_stream (SR cfg))) ;;
       d <- self ;;
       try_except
         (io (call (StreamOpen (SR cfg) (hop_size d)) (pyaudio_open env)) ;;
          update (set_audio_stream true) ;;
          ret true)
         isinstance_Exception
         (fun e =>
            io (print (msg_cannot_open_stream e)) ;;
            io (print msg_check_microphone) ;;
            update (set_is_running false) ;;
            ret false)) s
    with
    | (Raise e, s') => Some (Raise e, s')
    | (Ret false, s') => Some (Ret tt, s')          (* the early return *)
    | (Ret true, s') =>
        match
          (io (call StreamStart (stream_start_stream env)) ;;
           io (print msg_stream_started) ;;
           io (print msg_monitoring_banner)) s'
        with
        | (Raise e, s'') => Some (Raise e, s'')
        | (Ret _, s'') =>
            match detection_loop fuel 0 s'' with
            | None => None
            | Some (r, s3) => Some (after_loop r s3)
            end
        end
    end.

(** The [__main__] block of the module. *)
Definition main (fuel : nat) (w : world) : option (res unit * world) :=
  let model_path := module_model_path env in
  if negb (os_path_exists env model_path) then
    Some ((print (msg_model_file_missing model_path) ;;
           print msg_train_model_first ;;
           raise (SystemExit 1)) w)
  else
    match init model_path 1 (1 # 2) (Some vibration_alert) (Fin (1 # 2)) w with
    | (Raise e, w') => Some (Raise e, w')
    | (Ret detector, w') =>
        match start_detection fuel (detector, w') with
        | None => None
        | Some (r, s) => Some (r, snd s)
        end
    end.

End WithEnv.
End RealtimeDetection.

(** The exit status of the interpreter when a script ends with [r]. *)
Definition exit_status (r : res unit) : Z :=
  match r with
  | Ret _ => 0
  | Raise (SystemExit code) => code
  | Raise KeyboardInterrupt => 130
  | Raise _ => 1
  end%Z.

(** What the two launcher scripts do once the detector exists:
    [try: detector.start_detection()  except KeyboardInterrupt: print(...)
     finally: ...]. *)
Definition launcher_try (shutting_down : message)
    (r : res unit) (cleanup : M RealtimeDetection.DS unit)
    : M RealtimeDetection.DS unit :=
  try_finally
    (match r with
     | Raise KeyboardInterrupt => RealtimeDetection.io (print shutting_down)
     | _ => lift r
     end)
    cleanup.

(** ** src/realtime/realtime_main.py *)

Module RealtimeMain.

(** The parsed command line. *)
Record Args : Type := {
  args_model : string;
  args_threshold : npfloat;
  args_chunk_duration : Q;
  args_overlap : Q;
  args_vibration_controller : string;
  args_vibration_duration : Q;
  args_vibration_intensity : Q;
  args_min_snore_count : Z
}.

Section WithEnv.
Variable cfg : Config.
Variable env : Env.

(** The defaults of the argument parser. *)
Definition default_args : Args :=
  {| args_model := default_model_path env;
     args_threshold := Fin (1 # 2);
     args_chunk_duration := 1;
     args_overlap := 1 # 2;
     args_vibration_controller := "auto";
     args_vibration_duration := 1 # 2;
     args_vibration_intensity := 8 # 10;
     args_min_snore_count := 3 |}.

Definition resolve_model (args : Args) : string :=
  if negb (os_path_isabs env (args_model args))
  then os_path_abspath env (script_dir env ++ "/" ++ args_model args)
  else args_model args.

Definition main (fuel : nat) (args : Args) (w : world)
    : option (res unit * world) :=
  let model := resolve_model args in
  if negb (os_path_exists env model) then
    Some ((print (msg_model_file_missing model) ;;
           print msg_train_model_first) w)         (* return *)
  else
    match
      (print (msg_initialising_controller (args_vibration_controller args)) ;;
       c <- VibrationControl.create_vibration_controller env
              (args_vibration_controller args) ;;
       set_controller c ;;
       print (msg_loading_model model) ;;
       detector <- RealtimeDetection.init cfg env model
                     (args_chunk_duration args) (args_overlap args)
                     (Some (RealtimeDetection.trigger_vibration
                              (args_vibration_duration args)
                              (args_vibration_intensity args)))
                     (args_threshold args) ;;
       print msg_system_started ;;
       ret (RealtimeDetection.set_snore_threshold_count
              (args_min_snore_count args) detector)) w
    with
    | (Raise e, w') => Some (Raise e, w')
    | (Ret detector, w') =>
        match RealtimeDetection.start_detection cfg env fuel (detector, w') with
        | None => None
        | Some (r, s) =>
            match
              launcher_try msg_shutting_down r
                (RealtimeDetection.stop_detection env ;;
                 RealtimeDetection.io (VibrationControl.stop env) ;;
                 RealtimeDetection.io (print msg_system_closed)) s
            with
            | (r', s') => Some (r', snd s')
            end
        end
    end.

End WithEnv.
End RealtimeMain.

(** ** src/realtime/start_monitoring.py *)

Module StartMonitoring.
Section WithEnv.
Variable cfg : Config.
Variable env : Env.

Definition main (fuel : nat) (w : world) : option (res unit * world) :=
  let model_path := default_model_path env in
  match print msg_quick_start_banner w with
  | (_, w) =>
  if negb (os_path_exists env model_path) then
    Some ((print (msg_model_file_missing model_path) ;;
           print msg_train_model_first) w)         (* return *)
  else
    match
      (print (msg_model_found model_path) ;;
       print (msg_initialising_controller "simulated") ;;
       c <- VibrationControl.create_vibration_controller env "simulated" ;;
       set_controller c ;;
       print (msg_loading_model model_path) ;;
       detector <- RealtimeDetection.init cfg env model_path 1 (1 # 2)
                     (Some (RealtimeDetection.trigger_vibration (1 # 2) (8 # 10)))
                     (Fin (1 # 2)) ;;
       print msg_quick_start_configuration ;;
       ret (RealtimeDetection.set_snore_threshold_count 3 detector)) w
    with
    | (Raise e, w') => Some (Raise e, w')
    | (Ret detector, w') =>
        match RealtimeDetection.start_detection cfg env fuel (detector, w') with
        | None => None
        | Some (r, s) =>
            match
              launcher_try msg_shutting_down r
                (RealtimeDetection.stop_detection env ;;
                 RealtimeDetection.io (print msg_monitoring_stopped)) s
            with
            | (r', s') => Some (r', snd s')
            end
        end
    end
  end.

End WithEnv.
End StartMonitoring.

(** ** Observations on a run *)

Definition is_alert (e : event) : bool :=
  match e with VibrationCallback => true | _ => false end.

(** How many times the vibration callback has been invoked so far. *)
Definition alerts (w : world) : nat := length (filter is_alert (trace w)).

(** What only the running session does: start the stream, read from it,
    classify, alert. *)
Definition is_loop_event (e : event) : bool :=
  match e with
  | StreamStart | StreamRead _ | ModelPredict | VibrationCallback => true
  | _ => false
  end.

(** The callback returns normally from world [w]: [vibration_alert] only
    prints; [vibrate] sleeps outside any [try] when it simulates, and
    [time.sleep] refuses a negative length. *)
Definition callback_returns (cb : RealtimeDetection.callback) (w : world) : bool :=
  match cb with
  | RealtimeDetection.vibration_alert => true
  | RealtimeDetection.trigger_vibration duration _ =>
      match vibration_controller w with
      | None => false
      | Some (RaspberryPiVibrationController _ _ GPIO _) => GPIO || negb (Qltb duration 0)
      | Some (ArduinoVibrationController _ _ _ serial) => serial || negb (Qltb duration 0)
      | Some (SimulatedVibrationController _) => negb (Qltb duration 0)
      end
  end.

Section Drivers.
Variable cfg : Config.
Variable env : Env.
Import RealtimeDetection.

(** The score [predict] computes for a chunk handed to
    [process_audio_chunk] of detector [d]. *)
Definition score_of (d : Detector) (audio_chunk : list npfloat) : res npfloat :=
  match extract_features cfg env (pad_chunk d audio_chunk) with
  | Ret features => model d features
  | Raise e => Raise e
  end.

(** Feed the windows one after the other to [process_audio_chunk] and
    note, for each, how many alerts it fired. *)
Fixpoint process_windows (windows : list (list npfloat)) (s : DS)
    : res (list nat) * DS :=
  match windows with
  | [] => (Ret [], s)
  | window :: rest =>
      match process_audio_chunk cfg env window s with
      | (Raise e, s') => (Raise e, s')
      | (Ret _, s') =>
          let fired := alerts (snd s') - alerts (snd s) in
          match process_windows rest s' with
          | (Ret l, s'') => (Ret (fired :: l), s'')
          | (Raise e, s'') => (Raise e, s'')
          end
      end
  end.

(** The same for a sequence of scores, from line 136 on. *)
Fixpoint process_scores (scores : list npfloat) (s : DS) : res (list nat) * DS :=
  match scores with
  | [] => (Ret [], s)
  | score :: rest =>
      match process_prediction env score s with
      | (Raise e, s') => (Raise e, s')
      | (Ret _, s') =>
          let fired := alerts (snd s') - alerts (snd s) in
          match process_scores rest s' with
          | (Ret l, s'') => (Ret (fired :: l), s'')
          | (Raise e, s'') => (Raise e, s'')
          end
      end
  end.

End Drivers.

(** ** The debounced trigger as the specification words it

    "positive -> count += 1; negative -> count = 0.  On reaching
    count == threshold_count: emits exactly one alert event, then resets
    count to 0."  The result lists the alerts per window and the final
    count. *)
Fixpoint spec_debounce (threshold_count count : Z) (positives : list bool)
    : list nat * Z :=
  match positives with
  | [] => ([], count)
  | positive :: rest =>
      let count := if positive then (count + 1)%Z else 0%Z in
      if (count =? threshold_count)%Z
      then let (fired, final) := spec_debounce threshold_count 0 rest in
           (1 :: fired, final)
      else let (fired, final) := spec_debounce threshold_count count rest in
           (0 :: fired, final)
  end.

(** ** A small concrete world for the examples

    One frame per 512 samples (librosa's default hop); both feature blocks
    repeat the first sample of the window, so that the classifier, which
    reads the first entry of the tensor, scores a window by its first
    sample. *)
Module Example.

Definition cfg : Config :=
  {| SR := 4; N_MFCC := 2; N_MELS := 1; TIME_STEPS := 3 |}.

Definition frames (y : list npfloat) : nat := 1 + length y / 512.

Definition block (n_rows : nat) (y : list npfloat) : res ndarray :=
  match y with
  | [] => Raise (Exception "can't extract features from an empty signal")
  | x :: _ => Ret {| ncols := frames y; rows := repeat (repeat x (frames y)) n_rows |}
  end.

Definition first_entry : keras_model :=
  fun features =>
    match features with
    | [a] => Ret (entry a 0 0)
    | _ => Raise (ValueError "expected a batch of one")
    end.

Definition failing : keras_model :=
  fun _ => Raise (Exception "inference failed").

Definition silence (k : nat) : res (list npfloat) := Ret [zero; zero].

Definition env (model_exists : bool) (classifier : keras_model)
    (open_result rpi_import : res unit) (read : nat -> res (list npfloat)) : Env :=
  {| os_path_exists := fun _ => model_exists;
     os_path_isabs := fun _ => true;
     os_path_abspath := fun p => p;
     default_model_path := "/Snore_Detection/models/final_snore_detection_model.h5";
     module_model_path := "/models/final_snore_detection_model.h5";
     script_dir := "/Snore_Detection/src/realtime";
     load_model := fun _ => Ret classifier;
     librosa_load := fun _ _ => Ret [Fin 1; Fin 2; Fin 3];
     librosa_mfcc := fun y _ n => block n y;
     librosa_melspectrogram := fun y _ n => block n y;
     pyaudio_PyAudio := Ret tt;
     pyaudio_devices :=
       Ret [Ret {| maxInputChannels := 1; name := "mic"; defaultSampleRate := 44100 |}];
     pyaudio_open := open_result;
     stream_start_stream := Ret tt;
     stream_read := read;
     stream_stop_stream := Ret tt;
     stream_close := Ret tt;
     pyaudio_terminate := Ret tt;
     platform_system := "Linux";
     read_proc_cpuinfo := Ret "Model : Raspberry Pi 4 Model B";
     import_RPi_GPIO := rpi_import;
     GPIO_setmode := Ret tt;
     GPIO_setup := fun _ => Ret tt;
     GPIO_PWM := fun _ => Ret tt;
     pwm_start := Ret tt;
     pwm_ChangeDutyCycle := fun _ => None;
     import_serial := Raise (ImportError "No module named 'serial'");
     serial_Serial := fun _ _ => Ret tt;
     serial_write := fun _ => None |}.

Definition plain : Env :=
  env true first_entry (Ret tt) (Raise (ImportError "No module named 'RPi'")) silence.

(** A detector as [__init__] leaves it, with the given classifier. *)
Definition detector (classifier : keras_model) : RealtimeDetection.Detector :=
  {| RealtimeDetection.model := classifier;
     RealtimeDetection.chunk_duration := 1;
     RealtimeDetection.overlap := 1 # 2;
     RealtimeDetection.vibration_callback := Some RealtimeDetection.vibration_alert;
     RealtimeDetection.threshold := Fin (1 # 2);
     RealtimeDetection.chunk_size := 4;
     RealtimeDetection.hop_size := 2;
     RealtimeDetection.audio_buffer := [];
     RealtimeDetection.audio_buffer_maxlen := 12;
     RealtimeDetection.is_running := false;
     RealtimeDetection.audio_stream := false;
     RealtimeDetection.pyaudio_instance := false;
     RealtimeDetection.snore_count := 0;
     RealtimeDetection.snore_threshold_count := 3 |}.

End Example.

(** ** Vocabulary of the statements *)

Import RealtimeDetection.

(** [t] is [a] brought to [n] columns on the right: same rows, exactly
    [n] columns, the surviving entries where they were and zeros in the
    columns [a] does not have. *)
Definition right_fitted (n : nat) (a t : ndarray) : Prop :=
  ncols t = n /\ wf t /\ nrows t = nrows a /\
  forall i j, i < nrows a -> j < n ->
    entry t i j = if j <? ncols a then entry a i j else zero.

(** The two feature blocks, MFCC rows first. *)
Definition stacked (m1 m2 : ndarray) : ndarray :=
  {| ncols := ncols m1; rows := rows m1 ++ rows m2 |}.

(** Does the window with this classification fire, the counter being at
    [count]? *)
Definition fires (threshold_count count : Z) (positive : bool) : bool :=
  positive && (count + 1 =? threshold_count)%Z.

Definition next_count (threshold_count count : Z) (positive : bool) : Z :=
  if positive
  then if fires threshold_count count positive then 0%Z else (count + 1)%Z
  else 0%Z.

Definition add_events (events : list event) (w : world) : world :=
  {| trace := events ++ trace w; reads := reads w;
     vibration_controller := vibration_controller w |}.

Definition is_print (e : event) : bool :=
  match e with Print _ => true | _ => false end.

(** The detector a turn of the loop works on after it has read [data]. *)
Definition refilled (d : Detector) (data : list npfloat) : Detector :=
  set_audio_buffer (deque_extend (audio_buffer_maxlen d) (audio_buffer d) data) d.

(** Two sentences of the specification that the code does not bear out,
    stated as they are worded. *)

(** "zero-padded on the left if fewer than n are available". *)
Definition short_chunk_is_left_padded : Prop :=
  forall (d : Detector) (chunk : list npfloat),
    (Z.of_nat (length chunk) < chunk_size d)%Z ->
    pad_chunk d chunk
    = pad_left chunk (Z.to_nat (chunk_size d) - length chunk).

(** "any exception in extraction or inference for a single window ...
    resets count to 0". *)
Definition error_resets_counter : Prop :=
  forall (cfg : Config) (env : Env) (frame_count : nat) (d : Detector)
         (w : world) (data : list npfloat) (e : exn),
    is_running d = true ->
    stream_read env (reads w) = Ret data ->
    (Z.of_nat (length (audio_buffer (refilled d data))) >= chunk_size d)%Z ->
    score_of cfg env (refilled d data) (latest_window (refilled d data)) = Raise e ->
    isinstance_Exception e = true ->
    snore_count (fst (snd (loop_iteration cfg env frame_count (d, w)))) = 0%Z.

(** ** Concrete inputs *)

(** A tensor without variance. *)
Definition constant_tensor : ndarray :=
  {| ncols := 2; rows := [[Fin 3; Fin 3]; [Fin 3; Fin 3]] |}.

(** A long window (1100 samples, three frames) is cut to the two columns
    asked for; the file of three samples (one frame) is padded to them. *)
Definition two_steps : Config :=
  {| SR := 4; N_MFCC := 2; N_MELS := 128; TIME_STEPS := 2 |}.

Definition long_window : list npfloat := repeat (Fin 7) 1100.

(** Windows that score 0.1 and 0.9. *)
Definition tenth : list npfloat := [Fin (1 # 10)].
Definition nine_tenths : list npfloat := [Fin (9 # 10)].

(** A classifier that fails, and a detector two positives into a run
    with its buffer full. *)
Definition failing_env : Env :=
  Example.env true Example.failing (Ret tt)
    (Raise (ImportError "No module named 'RPi'")) Example.silence.

Definition armed : Detector :=
  set_snore_count 2
    (set_audio_buffer [zero; zero; zero; zero]
       (set_is_running true (Example.detector Example.failing))).

(** No model file; no microphone; RPi.GPIO installed on a board without
    the hardware. *)
Definition no_model : Env :=
  Example.env false Example.first_entry (Ret tt)
    (Raise (ImportError "No module named 'RPi'")) Example.silence.

Definition no_microphone : Env :=
  Example.env true Example.first_entry (Raise (Exception "Invalid input device"))
    (Raise (ImportError "No module named 'RPi'")) Example.silence.

Definition pi_without_gpio : Env :=
  Example.env true Example.first_entry (Ret tt)
    (Raise (RuntimeError "This module can only be run on a Raspberry Pi!"))
    Example.silence.

(** ** Vocabulary of the further properties *)

(** The settings of a session: everything in the detector but the buffer
    and the counter. *)
Definition same_settings (d d' : Detector) : Prop :=
  exists buffer count, d' = set_snore_count count (set_audio_buffer buffer d).

(** The failures a session has to live with are ordinary exceptions:
    those of the capture stream, and those of extraction and inference. *)
Definition ordinary_failures (cfg : Config) (env : Env) (d : Detector) : Prop :=
  (forall k e, stream_read env k = Raise e -> isinstance_Exception e = true) /\
  (forall chunk e, score_of cfg env d chunk = Raise e ->
                   isinstance_Exception e = true).

Definition is_stream_close (e : event) : bool :=
  match e with StreamClose => true | _ => false end.

Definition is_triggered_notice (e : event) : bool :=
  match e with Print (msg_vibration_triggered _) => true | _ => false end.

(** The capture device opens and releases without trouble. *)
Definition device_works (env : Env) : Prop :=
  pyaudio_PyAudio env = Ret tt /\ pyaudio_open env = Ret tt /\
  stream_start_stream env = Ret tt /\ stream_stop_stream env = Ret tt /\
  stream_close env = Ret tt /\ pyaudio_terminate env = Ret tt.

(** ** More concrete inputs *)

(** A simulated controller asked to vibrate for a negative time. *)
Definition backwards : Detector :=
  set_snore_count 2
    (set_snore_threshold_count 3
       {| model := Example.first_entry;
          chunk_duration := 1;
          overlap := 1 # 2;
          vibration_callback := Some (trigger_vibration (-1) (8 # 10));
          threshold := Fin (1 # 2);
          chunk_size := 4;
          hop_size := 2;
          audio_buffer := [];
          audio_buffer_maxlen := 12;
          is_running := true;
          audio_stream := true;
          pyaudio_instance := true;
          snore_count := 0;
          snore_threshold_count := 3 |}).

Definition simulated_world : world :=
  {| trace := []; reads := 0;
     vibration_controller := Some (SimulatedVibrationController false) |}.

Definition interrupted : Env :=
  Example.env true Example.first_entry (Ret tt)
    (Raise (ImportError "No module named 'RPi'"))
    (fun _ => Raise KeyboardInterrupt).

(** A detector one positive window from firing, its buffer full. *)
Definition about_to_fire : Detector :=
  set_snore_count 2
    (set_audio_buffer [Fin (1 # 10); zero; zero; zero]
       (set_is_running true (Example.detector Example.first_entry))).

Definition quiet_reads : Env :=
  Example.env true Example.first_entry (Ret tt)
    (Raise (ImportError "No module named 'RPi'")) (fun _ => Ret []).

(** * Properties *)

(** ** Floats and arrays *)

Section NumPyFacts.

Lemma Qltb_lt (a b : Q) : Qltb a b = true <-> (a < b)%Q.
Proof.
  unfold Qltb. rewrite Qlt_alt.
  destruct (a ?= b)%Q; split; congruence.
Qed.

Lemma div_by_zero_not_finite (x : npfloat) : isfinite (div x zero) = false.
Proof.
  destruct x as [a | | |]; simpl; try reflexivity.
  unfold signed_inf. destruct (a ?= 0)%Q; reflexivity.
Qed.

Lemma gtb_zero_zero : gtb zero zero = false.
Proof. reflexivity. Qed.

Lemma wf_map_array (f : npfloat -> npfloat) (a : ndarray) :
  wf a -> wf (map_array f a).
Proof.
  unfold wf, map_array; simpl. intros H.
  apply Forall_map. eapply Forall_impl; [| exact H].
  intros r Hr; simpl. now rewrite length_map.
Qed.

Lemma wf_row (a : ndarray) (i : nat) :
  wf a -> i < nrows a -> length (nth i (rows a) []) = ncols a.
Proof.
  unfold wf, nrows. intros H Hi.
  rewrite Forall_forall in H. apply H. now apply nth_In.
Qed.

Lemma entry_map_rows (f : list npfloat -> list npfloat) (a : ndarray) (n i j : nat) :
  i < nrows a ->
  entry {| ncols := n; rows := map f (rows a) |} i j
  = nth j (f (nth i (rows a) [])) NaN.
Proof.
  unfold entry, nrows; simpl. intros Hi.
  rewrite (nth_indep _ [] (f [])) by now rewrite length_map.
  now rewrite map_nth.
Qed.

Lemma wf_concatenate0 (a b c : ndarray) :
  wf a -> wf b -> concatenate0 a b = Ret c ->
  wf c /\ ncols c = ncols a /\ rows c = rows a ++ rows b.
Proof.
  unfold concatenate0, wf. intros Ha Hb.
  destruct (Nat.eqb_spec (ncols a) (ncols b)) as [E | E]; [| discriminate].
  intros [= <-]; simpl. repeat split.
  apply Forall_app; split; [exact Ha |].
  eapply Forall_impl; [| exact Hb]. intros r Hr; simpl in *. congruence.
Qed.

End NumPyFacts.

Lemma adjust_time_steps_right_fitted (cfg : Config) (a : ndarray) :
  wf a -> right_fitted (TIME_STEPS cfg) a (adjust_time_steps cfg a).
Proof.
  intros Hwf. unfold adjust_time_steps, right_fitted.
  destruct (Nat.eqb_spec (ncols a) (TIME_STEPS cfg)) as [E | E]; simpl.
  - repeat split; auto. intros i j _ Hj.
    rewrite <- E in Hj. apply Nat.ltb_lt in Hj. now rewrite Hj.
  - destruct (Nat.ltb_spec (ncols a) (TIME_STEPS cfg)) as [L | L].
    + (* zero-padded *)
      repeat split.
      * simpl. lia.
      * unfold wf, pad_cols_right; simpl. apply Forall_map.
        eapply Forall_impl; [| exact Hwf]. intros r Hr; simpl in *.
        rewrite length_app, repeat_length. lia.
      * unfold nrows, pad_cols_right; simpl. apply length_map.
      * intros i j Hi Hj. unfold pad_cols_right.
        rewrite entry_map_rows by exact Hi.
        pose proof (wf_row Hwf Hi) as Hlen.
        destruct (Nat.ltb_spec j (ncols a)) as [Hlt | Hge].
        -- unfold entry. apply app_nth1. lia.
        -- rewrite app_nth2 by lia. apply nth_repeat_lt. lia.
    + (* truncated *)
      repeat split.
      * simpl. lia.
      * unfold wf, take_cols; simpl. apply Forall_map.
        eapply Forall_impl; [| exact Hwf]. intros r Hr; simpl in *.
        rewrite length_firstn. lia.
      * unfold nrows, take_cols; simpl. apply length_map.
      * intros i j Hi Hj. unfold take_cols.
        rewrite entry_map_rows by exact Hi.
        rewrite nth_firstn.
        destruct (Nat.ltb_spec j (TIME_STEPS cfg)); [| lia].
        destruct (Nat.ltb_spec j (ncols a)); [reflexivity | lia].
Qed.

Lemma wf_normalize (a : ndarray) : wf a -> wf (RealtimeDetection.normalize a).
Proof.
  intros H. unfold RealtimeDetection.normalize.
  destruct (gtb _ _); [now apply wf_map_array | exact H].
Qed.

Lemma wf_normalize_features (a : ndarray) : wf a -> wf (Utils.normalize_features a).
Proof. intros H. now apply wf_map_array. Qed.

(** The guard of the real-time path: a standard deviation that is not
    positive (zero, or NaN) leaves the tensor as it is. *)
Lemma normalize_guard (a : ndarray) :
  gtb (std a) zero = false -> RealtimeDetection.normalize a = a.
Proof. intros H. unfold RealtimeDetection.normalize. now rewrite H. Qed.

(** ** Normalisation on a tensor without variance *)

Lemma In_normalize_features (a : ndarray) (r : list npfloat) (x : npfloat) :
  In r (rows (Utils.normalize_features a)) -> In x r ->
  exists y, x = div (sub y (mean a)) (std a).
Proof.
  unfold Utils.normalize_features, map_array; simpl.
  intros Hr Hx.
  apply in_map_iff in Hr as [r0 [<- _]].
  apply in_map_iff in Hx as [y [<- _]].
  now exists y.
Qed.

(** C3. On a tensor whose standard deviation is exactly 0 the real-time
    normalisation ([extract_features], lines 82-88) returns its input
    unchanged, but the offline one ([normalize_features] of utils.py)
    divides by that zero: not one entry of its result is a finite number. *)
Theorem zero_variance_normalization (features : ndarray) :
  std features = zero ->
  RealtimeDetection.normalize features = features /\
  forall r x, In r (rows (Utils.normalize_features features)) -> In x r ->
              isfinite x = false.
Proof.
  intros Hstd. split.
  - apply normalize_guard. rewrite Hstd. apply gtb_zero_zero.
  - intros r x Hr Hx.
    destruct (In_normalize_features _ _ _ Hr Hx) as [y ->].
    rewrite Hstd. apply div_by_zero_not_finite.
Qed.

Lemma zero_variance_normalization_witness :
  std constant_tensor = zero /\
  RealtimeDetection.normalize constant_tensor = constant_tensor /\
  Utils.normalize_features constant_tensor
  = {| ncols := 2; rows := [[NaN; NaN]; [NaN; NaN]] |}.
Proof.
  split; [reflexivity |].
  split.
  - apply (zero_variance_normalization constant_tensor). reflexivity.
  - reflexivity.
Defined.

(** ** The shape of the feature tensor *)

Section FeatureShape.
Variable cfg : Config.
Variable env : Env.

Lemma extract_features_eq (audio : list npfloat) (m1 m2 c : ndarray) :
  librosa_mfcc env audio (SR cfg) (N_MFCC cfg) = Ret m1 ->
  librosa_melspectrogram env audio (SR cfg) (N_MELS cfg) = Ret m2 ->
  concatenate0 m1 m2 = Ret c ->
  RealtimeDetection.extract_features cfg env audio
  = Ret [adjust_time_steps cfg (RealtimeDetection.normalize c)].
Proof.
  intros H1 H2 Hc. unfold RealtimeDetection.extract_features.
  now rewrite H1, H2, Hc.
Qed.

Lemma preprocess_file_eq (file : string) (label : Z) (y : list npfloat)
    (m1 m2 c : ndarray) :
  librosa_load env file (SR cfg) = Ret y ->
  librosa_mfcc env y (SR cfg) (N_MFCC cfg) = Ret m1 ->
  librosa_melspectrogram env y (SR cfg) Utils.default_n_mels = Ret m2 ->
  concatenate0 m1 m2 = Ret c ->
  Preprocess.preprocess_file cfg env file label
  = Ret (adjust_time_steps cfg (Utils.normalize_features c), label).
Proof.
  intros Hy H1 H2 Hc.
  unfold Preprocess.preprocess_file, Utils.extract_mfcc,
    Utils.extract_mel_spectrogram.
  now rewrite Hy, H1, H2, Hc.
Qed.

Lemma concatenate0_returns (m1 m2 : ndarray) :
  ncols m1 = ncols m2 ->
  concatenate0 m1 m2 = Ret {| ncols := ncols m1; rows := rows m1 ++ rows m2 |}.
Proof.
  intros E. unfold concatenate0. now rewrite E, Nat.eqb_refl.
Qed.

End FeatureShape.

Lemma wfb_wf (a : ndarray) : wfb a = true -> wf a.
Proof.
  unfold wfb, wf. rewrite forallb_forall, Forall_forall.
  intros H r Hr. apply Nat.eqb_eq. now apply H.
Qed.

Lemma wf_stacked (m1 m2 : ndarray) :
  wf m1 -> wf m2 -> ncols m1 = ncols m2 -> wf (stacked m1 m2).
Proof.
  intros H1 H2 E.
  destruct (wf_concatenate0 H1 H2 (concatenate0_returns m1 m2 E)) as [H _].
  exact H.
Qed.



(** One frame padded to three columns; three frames cut to two. *)
Lemma adjust_time_steps_examples :
  RealtimeDetection.extract_features Example.cfg Example.plain [Fin 5]
  = Ret [{| ncols := 3;
            rows := [[Fin 5; zero; zero]; [Fin 5; zero; zero]; [Fin 5; zero; zero]] |}] /\
  adjust_time_steps two_steps
    {| ncols := 3; rows := [[Fin 1; Fin 2; Fin 3]; [Fin 4; Fin 5; Fin 6]] |}
  = {| ncols := 2; rows := [[Fin 1; Fin 2]; [Fin 4; Fin 5]] |}.
Proof. split; reflexivity. Qed.

(** ** Running the monadic code *)

Ltac run_monad :=
  unfold bind, ret, raise, lift, modify, try_except, try_finally,
    RealtimeDetection.self, RealtimeDetection.update, RealtimeDetection.io,
    emit, print, call, driver_call, set_controller in *;
  simpl in *.

(** ** Score polarity *)

Lemma is_snore_finite (score threshold_ratio : Q) :
  is_snore (Fin threshold_ratio) (Fin score) = true
  <-> (score < 1 - threshold_ratio)%Q.
Proof.
  unfold is_snore, sub, one, neg, add, ltb. rewrite Qltb_lt.
  assert (E : (Qred (1 + Qred (- threshold_ratio)) == 1 - threshold_ratio)%Q).
  { rewrite Qred_correct. rewrite Qred_correct. reflexivity. }
  rewrite E. reflexivity.
Qed.

Lemma is_snore_nan (threshold_ratio : npfloat) : is_snore threshold_ratio NaN = false.
Proof. reflexivity. Qed.

Lemma process_prediction_value (env : Env) (prediction : npfloat) (s s' : DS)
    (r : npfloat * bool) :
  process_prediction env prediction s = (Ret r, s') ->
  r = (prediction, is_snore (threshold (fst s)) prediction).
Proof.
  destruct s as [d w]. unfold process_prediction. run_monad.
  destruct (is_snore (threshold d) prediction); simpl;
    match goal with |- context [(?a >=? ?b)%Z] => destruct (a >=? b)%Z end;
    simpl; try (intros [= <- _]; reflexivity);
    destruct (vibration_callback d) as [cb |]; simpl;
    try (intros [= <- _]; reflexivity);
    match goal with |- context [call_callback ?e ?c ?x] =>
      destruct (call_callback e c x) as [[[] | e'] w'] end;
    simpl; intros [= <-]; try reflexivity; discriminate.
Qed.

Lemma process_audio_chunk_value (cfg : Config) (env : Env) (chunk : list npfloat)
    (s s' : DS) (r : npfloat * bool) :
  process_audio_chunk cfg env chunk s = (Ret r, s') ->
  exists prediction,
    score_of cfg env (fst s) chunk = Ret prediction /\
    r = (prediction, is_snore (threshold (fst s)) prediction).
Proof.
  destruct s as [d w]. unfold process_audio_chunk, predict, score_of.
  run_monad.
  destruct (extract_features cfg env (pad_chunk d chunk)) as [f | e];
    [| discriminate].
  destruct (model d f) as [p | e]; [| discriminate].
  intros H. exists p. split; [reflexivity |].
  apply process_prediction_value in H. exact H.
Qed.


(** ** The window handed to the classifier *)

Lemma py_slice_from_last {A} (n : nat) (l : list A) :
  0 < n -> n <= length l ->
  py_slice_from (- Z.of_nat n) l = skipn (length l - n) l.
Proof.
  intros Hn Hl. unfold py_slice_from.
  destruct (Z.ltb_spec (- Z.of_nat n) 0); [| lia].
  f_equal. lia.
Qed.




(** ** The vibration callback *)

Section Callback.
Variable env : Env.

(** A callback that returns leaves the alert count alone (the alert is
  counted by its caller) and can be called again. *)
Lemma call_callback_returns (cb : callback) (w : world) :
callback_returns cb w = true ->
exists w',
  call_callback env cb w = (Ret tt, w') /\
  callback_returns cb w' = true /\
  alerts w' = alerts w /\
  reads w' = reads w.
Proof.
destruct cb as [| duration intensity]; simpl.
- intros _. eexists. split; [reflexivity |]. repeat split.
- unfold VibrationControl.vibrate, VibrationControl.self_controller,
    VibrationControl.stop, VibrationControl.mark_vibrating,
    VibrationControl.self_controller, time_sleep.
  destruct w as [tr n [c |]]; simpl; [| discriminate].
  destruct c as [v pin [|] pwm | v port baud [|] | v]; simpl; run_monad;
    intros H;
    repeat match goal with
      | |- context [Qltb ?d 0] => destruct (Qltb d 0) eqn:?; simpl
      | |- context [pwm_ChangeDutyCycle env ?x] =>
          destruct (pwm_ChangeDutyCycle env x); simpl
      | |- context [serial_write env ?x] =>
          destruct (serial_write env x); simpl
      | |- context [if pwm then _ else _] => destruct pwm; simpl
      end;
    try discriminate;
    (eexists; split; [reflexivity |]; repeat split; assumption || reflexivity).
Qed.

End Callback.

(** ** The debounced trigger *)

Unset Implicit Arguments.

Section Debounce.
Variable cfg : Config.
Variable env : Env.

Lemma alerts_cons (e : event) (tr : list event) (n : nat) (c : option controller) :
alerts {| trace := e :: tr; reads := n; vibration_controller := c |}
= (if is_alert e then 1 else 0)
  + alerts {| trace := tr; reads := n; vibration_controller := c |}.
Proof. unfold alerts; simpl. destruct (is_alert e); reflexivity. Qed.

(** One score, from a state in which the counter is below the threshold. *)
Lemma process_prediction_step (d : Detector) (w : world) (cb : callback)
  (prediction : npfloat) :
vibration_callback d = Some cb ->
callback_returns cb w = true ->
(0 <= snore_count d < snore_threshold_count d)%Z ->
let positive := is_snore (threshold d) prediction in
exists w',
  process_prediction env prediction (d, w)
  = (Ret (prediction, positive),
     (set_snore_count (next_count (snore_threshold_count d) (snore_count d) positive) d,
      w')) /\
  alerts w'
  = alerts w
    + (if fires (snore_threshold_count d) (snore_count d) positive then 1 else 0) /\
  callback_returns cb w' = true /\
  reads w' = reads w.
Proof.
intros Hcb Hret Hcount positive. subst positive.
unfold process_prediction, next_count, fires. run_monad.
destruct (is_snore (threshold d) prediction); simpl.
- destruct (Z.geb_spec (snore_count d + 1) (snore_threshold_count d)) as [G | G].
  + (* the threshold is reached *)
    assert (E : (snore_count d + 1 =? snore_threshold_count d)%Z = true)
      by (apply Z.eqb_eq; lia).
    rewrite E, Hcb.
    destruct w as [tr n c].
    destruct (call_callback_returns env cb
                {| trace := VibrationCallback :: tr; reads := n;
                   vibration_controller := c |} Hret)
      as [w' [Hcall [Hret' [Hal Hrd]]]].
    simpl. rewrite Hcall. simpl.
    exists w'. repeat split; auto.
    rewrite Hal, alerts_cons. simpl. lia.
  + assert (E : (snore_count d + 1 =? snore_threshold_count d)%Z = false)
      by (apply Z.eqb_neq; lia).
    rewrite E. exists w. repeat split; auto.
- destruct (Z.geb_spec 0 (snore_threshold_count d)); [lia |].
  exists w. repeat split; auto.
Qed.

(** The same for a window whose score is [prediction]. *)
Lemma process_audio_chunk_step (d : Detector) (w : world) (cb : callback)
  (window : list npfloat) (prediction : npfloat) :
score_of cfg env d window = Ret prediction ->
vibration_callback d = Some cb ->
callback_returns cb w = true ->
(0 <= snore_count d < snore_threshold_count d)%Z ->
let positive := is_snore (threshold d) prediction in
exists w',
  process_audio_chunk cfg env window (d, w)
  = (Ret (prediction, positive),
     (set_snore_count (next_count (snore_threshold_count d) (snore_count d) positive) d,
      w')) /\
  alerts w'
  = alerts w
    + (if fires (snore_threshold_count d) (snore_count d) positive then 1 else 0) /\
  callback_returns cb w' = true.
Proof.
intros Hscore Hcb Hret Hcount positive.
unfold score_of in Hscore.
unfold process_audio_chunk, predict. run_monad.
destruct (extract_features cfg env (pad_chunk d window)) as [f | e];
  [| discriminate].
rewrite Hscore. simpl.
destruct w as [tr n c].
destruct (process_prediction_step d
            {| trace := ModelPredict :: tr; reads := n;
               vibration_controller := c |} cb prediction Hcb Hret Hcount)
  as [w' [Hrun [Hal [Hret' _]]]].
exists w'. repeat split; auto.
Qed.

Lemma spec_debounce_cons (threshold_count count : Z) (positive : bool)
  (rest : list bool) :
(0 <= count < threshold_count)%Z ->
spec_debounce threshold_count count (positive :: rest)
= ((if fires threshold_count count positive then 1 else 0)
     :: fst (spec_debounce threshold_count
               (next_count threshold_count count positive) rest),
   snd (spec_debounce threshold_count
          (next_count threshold_count count positive) rest)).
Proof.
intros H. unfold next_count, fires.
destruct positive; cbn [spec_debounce andb].
- destruct (count + 1 =? threshold_count)%Z;
    match goal with |- context [spec_debounce ?a ?b ?c] =>
      destruct (spec_debounce a b c) end; reflexivity.
- destruct (Z.eqb_spec 0 threshold_count) as [E | E]; [lia |].
  match goal with |- context [spec_debounce ?a ?b ?c] =>
    destruct (spec_debounce a b c) end; reflexivity.
Qed.

Lemma next_count_range (threshold_count count : Z) (positive : bool) :
(0 <= count < threshold_count)%Z ->
(0 <= next_count threshold_count count positive < threshold_count)%Z.
Proof.
intros H. unfold next_count, fires. destruct positive; simpl; [| lia].
destruct (Z.eqb_spec (count + 1) threshold_count); lia.
Qed.

Lemma process_windows_refines (windows : list (list npfloat)) :
forall (scores : list npfloat) (d : Detector) (w : world) (cb : callback),
  Forall2 (fun window score => score_of cfg env d window = Ret score)
          windows scores ->
  vibration_callback d = Some cb ->
  callback_returns cb w = true ->
  (0 <= snore_count d < snore_threshold_count d)%Z ->
  let spec := spec_debounce (snore_threshold_count d) (snore_count d)
                (map (is_snore (threshold d)) scores) in
  exists w',
    process_windows cfg env windows (d, w)
    = (Ret (fst spec), (set_snore_count (snd spec) d, w')) /\
    alerts w' = alerts w + list_sum (fst spec).
Proof.
induction windows as [| window windows IH];
  intros scores d w cb HF Hcb Hret Hcount; inversion HF; subst; clear HF.
- simpl. exists w. split; [| lia].
  destruct d; reflexivity.
- match goal with H : score_of _ _ _ _ = Ret ?y |- _ => rename y into score,
      H into Hscore end.
  match goal with H : Forall2 _ windows ?l |- _ => rename l into rest,
      H into Hrest end.
  cbv zeta. simpl map. rewrite spec_debounce_cons by exact Hcount.
  destruct (process_audio_chunk_step d w cb window score Hscore Hcb Hret Hcount)
    as [w1 [Hrun [Hal Hret1]]].
  simpl process_windows. rewrite Hrun.
  set (positive := is_snore (threshold d) score) in *.
  set (d1 := set_snore_count
               (next_count (snore_threshold_count d) (snore_count d) positive) d).
  destruct (IH rest d1 w1 cb) as [w' [Hrest' Hal']]; auto.
  { subst d1. simpl. now apply next_count_range. }
  cbv zeta in Hrest'. subst d1. simpl in Hrest', Hal'.
  rewrite Hrest'. simpl snd. simpl fst.
  exists w'. split.
  + do 3 f_equal. rewrite Hal. lia.
  + simpl list_sum. rewrite Hal', Hal. lia.
Qed.

End Debounce.

(** [__init__] leaves the trigger idle, three windows from firing. *)
Lemma init_trigger_state (cfg : Config) (env : Env) (path : string)
    (duration overlap : Q) (cb : option callback) (ratio : npfloat)
    (w w' : world) (d : Detector) :
  init cfg env path duration overlap cb ratio w = (Ret d, w') ->
  snore_count d = 0%Z /\ snore_threshold_count d = 3%Z /\
  vibration_callback d = cb /\ threshold d = ratio.
Proof.
  unfold init. run_monad.
  destruct (load_model env path); [| discriminate].
  intros [= <- _]. repeat split.
Qed.

(** A detector fresh from [__init__], whatever count the launcher then
    sets, satisfies what the trigger needs as soon as that count is at
    least 1. *)
Lemma fresh_detector_is_idle (cfg : Config) (env : Env) (path : string)
    (duration overlap : Q) (cb : option callback) (ratio : npfloat)
    (w w' : world) (d : Detector) (min_snore_count : Z) :
  init cfg env path duration overlap cb ratio w = (Ret d, w') ->
  (1 <= min_snore_count)%Z ->
  let d' := set_snore_threshold_count min_snore_count d in
  (0 <= snore_count d' < snore_threshold_count d')%Z.
Proof.
  intros H Hmin. apply init_trigger_state in H as [H0 _]. simpl.
  rewrite H0. lia.
Qed.



(** [0.1, 0.1, 0.9, 0.1, 0.1, 0.1]: the third element resets the counter
    and the only alert comes after the sixth. *)
Lemma debounce_reset_example :
  fst (process_windows Example.cfg Example.plain
         [tenth; tenth; nine_tenths; tenth; tenth; tenth]
         (Example.detector Example.first_entry, initial_world))
  = Ret [0; 0; 0; 0; 0; 1] /\
  fst (process_scores Example.plain
         [Fin (1 # 10); Fin (1 # 10); Fin (9 # 10)]
         (Example.detector Example.first_entry, initial_world))
  = Ret [0; 0; 0] /\
  snore_count
    (fst (snd (process_scores Example.plain
                 [Fin (1 # 10); Fin (1 # 10); Fin (9 # 10)]
                 (Example.detector Example.first_entry, initial_world))))
  = 0%Z.
Proof. repeat split; reflexivity. Qed.

(** ** Starting a session *)

Section Session.
Variable cfg : Config.
Variable env : Env.

Lemma print_devices_prints (infos : list (res device_info)) :
forall (i : nat) (w : world),
exists r events,
  print_devices i infos w = (r, add_events events w) /\
  forallb is_print events = true.
Proof.
induction infos as [| [info | e] infos IH]; intros i w.
- exists (Ret tt), []. destruct w; split; reflexivity.
- simpl. run_monad.
  destruct (maxInputChannels info >? 0)%Z; simpl.
  + destruct (IH (S i) {| trace := Print (msg_device i info) :: trace w;
                          reads := reads w;
                          vibration_controller := vibration_controller w |})
      as [r [events [Hrun Hp]]].
    rewrite Hrun. exists r, (events ++ [Print (msg_device i info)]).
    split.
    * destruct r; unfold add_events; simpl; rewrite <- app_assoc; reflexivity.
    * rewrite forallb_app, Hp. reflexivity.
  + destruct (IH (S i) w) as [r [events [Hrun Hp]]].
    rewrite Hrun. exists r, events. split; [destruct r; reflexivity | exact Hp].
- exists (Raise e), []. destruct w; split; reflexivity.
Qed.

(** The listing is for the eye only: it returns whatever the devices do. *)
Lemma list_devices_prints (w : world) :
exists events,
  list_devices env w = (Ret tt, add_events events w) /\
  forallb is_print events = true.
Proof.
unfold list_devices. run_monad.
destruct (pyaudio_devices env) as [infos | e].
- destruct (print_devices_prints infos 0 w) as [r [events [Hrun Hp]]].
  rewrite Hrun. exists events. destruct r as [[] | e]; split; auto.
- exists []. destruct w; split; reflexivity.
Qed.

Lemma is_print_not_capture (events : list event) :
forallb is_print events = true ->
forallb (fun e => negb (is_loop_event e)) events = true.
Proof.
rewrite !forallb_forall. intros H e He. specialize (H e He).
destruct e; simpl in *; congruence.
Qed.

End Session.

(** C10. [start_detection] on a detector that is already running prints
    its notice and returns: the detector object is the same, no stream is
    opened or read, and nothing but the notice is added to the trace. *)
Theorem start_detection_idempotent (cfg : Config) (env : Env) (fuel : nat)
    (d : Detector) (w : world) :
  is_running d = true ->
  start_detection cfg env fuel (d, w)
  = Some (Ret tt, (d, add_events [Print msg_already_running] w)).
Proof.
  intros H. unfold start_detection. simpl. rewrite H. reflexivity.
Qed.

Lemma start_detection_idempotent_witness :
  start_detection Example.cfg Example.plain 0
    (set_is_running true (Example.detector Example.first_entry), initial_world)
  = Some (Ret tt,
          (set_is_running true (Example.detector Example.first_entry),
           add_events [Print msg_already_running] initial_world)).
Proof.
  apply (start_detection_idempotent Example.cfg Example.plain 0
           (set_is_running true (Example.detector Example.first_entry))
           initial_world).
  reflexivity.
Defined.

(** C8. When opening the capture stream raises, [start_detection] prints
    the failure, puts [is_running] back to False and returns: the loop is
    not entered, the stream is neither started nor read, and of the
    detector only [pyaudio_instance] has changed. *)
Theorem device_open_failure (cfg : Config) (env : Env) (fuel : nat)
    (d : Detector) (w : world) (e : exn) :
  is_running d = false ->
  pyaudio_PyAudio env = Ret tt ->
  pyaudio_open env = Raise e ->
  isinstance_Exception e = true ->
  exists events,
    start_detection cfg env fuel (d, w)
    = Some (Ret tt, (set_pyaudio_instance true d, add_events events w)) /\
    is_running (set_pyaudio_instance true d) = false /\
    In (Print (msg_cannot_open_stream e)) events /\
    forallb (fun ev => negb (is_loop_event ev)) events = true.
Proof.
  intros Hrun Hpa Hopen Hexc.
  unfold start_detection. simpl. rewrite Hrun. run_monad.
  rewrite Hpa. simpl.
  destruct (list_devices_prints env
              {| trace := Print msg_input_devices :: PyAudioInit :: trace w;
                 reads := reads w;
                 vibration_controller := vibration_controller w |})
    as [events [Hlist Hp]].
  rewrite Hlist. simpl. rewrite Hopen, Hexc. simpl.
  exists ([Print msg_check_microphone; Print (msg_cannot_open_stream e);
           StreamOpen (SR cfg) (hop_size d); Print (msg_opening_stream (SR cfg))]
          ++ events ++ [Print msg_input_devices; PyAudioInit]).
  split; [| split; [| split]].
  - unfold add_events, set_is_running, set_pyaudio_instance; simpl.
    rewrite <- app_assoc. simpl. rewrite <- Hrun. reflexivity.
  - reflexivity.
  - simpl. auto.
  - simpl. rewrite forallb_app, (is_print_not_capture events Hp). reflexivity.
Qed.

Lemma device_open_failure_witness :
  exists events,
    start_detection Example.cfg no_microphone 5
      (Example.detector Example.first_entry, initial_world)
    = Some (Ret tt,
            (set_pyaudio_instance true (Example.detector Example.first_entry),
             add_events events initial_world)) /\
    is_running (set_pyaudio_instance true (Example.detector Example.first_entry))
    = false /\
    In (Print (msg_cannot_open_stream (Exception "Invalid input device"))) events /\
    forallb (fun ev => negb (is_loop_event ev)) events = true.
Proof.
  apply (device_open_failure Example.cfg no_microphone 5
           (Example.detector Example.first_entry) initial_world
           (Exception "Invalid input device")); reflexivity.
Defined.

(** ** Errors inside a turn of the loop *)


(** A window whose score cannot be computed changes nothing in the
    detector and fires nothing. *)
Lemma process_audio_chunk_raises (cfg : Config) (env : Env) (d : Detector)
    (w : world) (window : list npfloat) (e : exn) :
  score_of cfg env d window = Raise e ->
  exists w',
    process_audio_chunk cfg env window (d, w) = (Raise e, (d, w')) /\
    alerts w' = alerts w /\
    reads w' = reads w.
Proof.
  unfold score_of, process_audio_chunk, predict. run_monad.
  destruct (extract_features cfg env (pad_chunk d window)) as [f | e0].
  - intros ->. simpl. eexists. split; [reflexivity |]. split; reflexivity.
  - intros [= ->]. simpl. eexists. split; [reflexivity |]. split; reflexivity.
Qed.



(** ** Starting without a model file *)

(** C7. With the model file missing, the three entry points print the
    error and end without loading a model or opening a session (nothing
    but messages is added to the trace).  The [__main__] block of
    realtime_detection.py ends through [exit(1)]; [main] of
    realtime_main.py and of start_monitoring.py simply return, and the
    interpreter exits with status 0. *)
Theorem missing_model_exit_status (cfg : Config) (env : Env) (fuel : nat)
    (args : RealtimeMain.Args) (w : world) :
  os_path_exists env (module_model_path env) = false ->
  os_path_exists env (RealtimeMain.resolve_model env args) = false ->
  os_path_exists env (default_model_path env) = false ->
  (exists events,
      RealtimeDetection.main cfg env fuel w
      = Some (Raise (SystemExit 1), add_events events w) /\
      forallb is_print events = true /\
      exit_status (Raise (SystemExit 1)) = 1%Z) /\
  (exists events,
      RealtimeMain.main cfg env fuel args w = Some (Ret tt, add_events events w) /\
      forallb is_print events = true /\
      exit_status (Ret tt) = 0%Z) /\
  (exists events,
      StartMonitoring.main cfg env fuel w = Some (Ret tt, add_events events w) /\
      forallb is_print events = true /\
      exit_status (Ret tt) = 0%Z).
Proof.
  intros H1 H2 H3. repeat split.
  - unfold RealtimeDetection.main. rewrite H1. simpl.
    exists [Print msg_train_model_first;
            Print (msg_model_file_missing (module_model_path env))].
    repeat split.
  - unfold RealtimeMain.main. rewrite H2. simpl.
    exists [Print msg_train_model_first;
            Print (msg_model_file_missing (RealtimeMain.resolve_model env args))].
    repeat split.
  - unfold StartMonitoring.main. simpl. rewrite H3. simpl.
    exists [Print msg_train_model_first;
            Print (msg_model_file_missing (default_model_path env));
            Print msg_quick_start_banner].
    repeat split.
Qed.

Lemma missing_model_exit_status_witness :
  option_map (fun r => exit_status (fst r))
    (RealtimeDetection.main Example.cfg no_model 5 initial_world) = Some 1%Z /\
  option_map (fun r => exit_status (fst r))
    (RealtimeMain.main Example.cfg no_model 5
       (RealtimeMain.default_args no_model) initial_world) = Some 0%Z /\
  option_map (fun r => exit_status (fst r))
    (StartMonitoring.main Example.cfg no_model 5 initial_world) = Some 0%Z.
Proof.
  destruct (missing_model_exit_status Example.cfg no_model 5
              (RealtimeMain.default_args no_model) initial_world)
    as [[e1 [H1 _]] [[e2 [H2 _]] [e3 [H3 _]]]]; try reflexivity.
  rewrite H1, H2, H3. repeat split.
Defined.

(** ** Constructing a controller *)

Section Construction.
Variable env : Env.
Import VibrationControl.

(** The simulated controller needs nothing. *)
Lemma Simulated_init_returns (w : world) :
Simulated_init w = (Ret (SimulatedVibrationController false), w).
Proof. reflexivity. Qed.

(** A missing RPi.GPIO library is handled: the controller simulates. *)
Lemma RaspberryPi_init_without_library (pin : Z) (w : world) (e : exn) :
import_RPi_GPIO env = Raise e ->
isinstance_ImportError e = true ->
RaspberryPi_init env pin w
= (Ret (RaspberryPiVibrationController false pin false false),
   add_events [Print msg_no_rpi_gpio_simulating] w).
Proof.
intros H He. unfold RaspberryPi_init. run_monad. now rewrite H, He.
Qed.

(** The serial controller falls back on every ordinary exception. *)
Lemma Arduino_init_falls_back (port : string) (baudrate : Z) (w : world) :
(forall e, import_serial env = Raise e -> isinstance_Exception e = true) ->
(forall e, serial_Serial env port baudrate = Raise e ->
           isinstance_Exception e = true) ->
exists serial w',
  Arduino_init env port baudrate w
  = (Ret (ArduinoVibrationController false port baudrate serial), w').
Proof.
intros Himport Hopen.
unfold Arduino_init, except_ImportError_or_Exception. run_monad.
destruct (import_serial env) as [[] | e] eqn:E1; simpl.
- destruct (serial_Serial env port baudrate) as [[] | e] eqn:E2; simpl.
  + eexists. eexists. reflexivity.
  + rewrite (Hopen e eq_refl), orb_true_r.
    destruct (isinstance_ImportError e); simpl; eexists; eexists; reflexivity.
- rewrite (Himport e eq_refl), orb_true_r.
  destruct (isinstance_ImportError e); simpl; eexists; eexists; reflexivity.
Qed.

End Construction.

(** C9. [RaspberryPiVibrationController.__init__] catches ImportError
    only.  When the RPi.GPIO library is installed but the hardware is not
    there (the import, or [GPIO.setup], raises something else, a
    RuntimeError in practice) the construction raises, directly, through
    [create_vibration_controller('raspberrypi')], and through the
    selector ['auto'] on a host that presents itself as a Raspberry Pi. *)
Theorem raspberry_pi_construction_raises (env : Env) (w : world) (e : exn) :
  (import_RPi_GPIO env = Raise e \/
   (import_RPi_GPIO env = Ret tt /\ GPIO_setmode env = Ret tt /\
    GPIO_setup env 18%Z = Raise e)) ->
  isinstance_ImportError e = false ->
  VibrationControl.contains "linux" (VibrationControl.lower (platform_system env))
  = true ->
  (exists text, read_proc_cpuinfo env = Ret text /\
                VibrationControl.contains "Raspberry Pi" text = true) ->
  (exists w', VibrationControl.RaspberryPi_init env 18%Z w = (Raise e, w')) /\
  (exists w', VibrationControl.create_vibration_controller env "raspberrypi" w
              = (Raise e, w')) /\
  (exists w', VibrationControl.create_vibration_controller env "auto" w
              = (Raise e, w')).
Proof.
  intros Hfail He Hlinux [text [Hcpu Hpi]].
  assert (Hinit : exists w', VibrationControl.RaspberryPi_init env 18%Z w = (Raise e, w')).
  { unfold VibrationControl.RaspberryPi_init. run_monad.
    destruct Hfail as [H | [H1 [H2 H3]]].
    - rewrite H, He. eexists. reflexivity.
    - rewrite H1, H2, H3. simpl. rewrite He. eexists. reflexivity. }
  split; [exact Hinit |]. split.
  - unfold VibrationControl.create_vibration_controller. simpl. exact Hinit.
  - unfold VibrationControl.create_vibration_controller.
    simpl String.eqb. cbv iota. rewrite Hlinux, Hcpu, Hpi. simpl. exact Hinit.
Qed.

Lemma raspberry_pi_construction_raises_witness :
  fst (VibrationControl.create_vibration_controller pi_without_gpio "auto"
         initial_world)
  = Raise (RuntimeError "This module can only be run on a Raspberry Pi!").
Proof.
  destruct (raspberry_pi_construction_raises pi_without_gpio initial_world
              (RuntimeError "This module can only be run on a Raspberry Pi!"))
    as [_ [_ [w' H]]].
  - left. reflexivity.
  - reflexivity.
  - reflexivity.
  - exists "Model : Raspberry Pi 4 Model B". split; reflexivity.
  - rewrite H. reflexivity.
Defined.

(** * Further properties of the sources *)

(** ** What a window may change *)

Section Frame.
Variable cfg : Config.
Variable env : Env.

(** Whatever the callback does, it raises nothing but ordinary
  exceptions, reads nothing from the stream and fires no alert of its
  own. *)
Lemma call_callback_outcome (cb : callback) (w : world) :
exists r w',
  call_callback env cb w = (r, w') /\
  reads w' = reads w /\
  alerts w' = alerts w /\
  (forall e, r = Raise e -> isinstance_Exception e = true).
Proof.
destruct cb as [| duration intensity]; simpl.
- eexists. eexists. split; [reflexivity |]. repeat split. discriminate.
- unfold VibrationControl.vibrate, VibrationControl.self_controller,
    VibrationControl.stop, VibrationControl.mark_vibrating,
    VibrationControl.self_controller, time_sleep.
  destruct w as [tr n [c |]]; simpl;
    [| eexists; eexists; split; [reflexivity |]; repeat split;
       intros e [= <-]; reflexivity].
  destruct c as [v pin [|] pwm | v port baud [|] | v]; simpl; run_monad;
    repeat match goal with
      | |- context [Qltb ?d 0] => destruct (Qltb d 0) eqn:?; simpl
      | |- context [pwm_ChangeDutyCycle env ?x] =>
          destruct (pwm_ChangeDutyCycle env x); simpl
      | |- context [serial_write env ?x] =>
          destruct (serial_write env x); simpl
      | |- context [if pwm then _ else _] => destruct pwm; simpl
      end;
    (eexists; eexists; split; [reflexivity |]; repeat split;
     try discriminate; intros e [= <-]; reflexivity).
Qed.

(** From line 136 on, only the counter of the detector changes, in every
  outcome. *)
Lemma process_prediction_frame (prediction : npfloat) (d : Detector) (w : world) :
exists r n w',
  process_prediction env prediction (d, w) = (r, (set_snore_count n d, w')) /\
  reads w' = reads w /\
  (forall e, r = Raise e -> isinstance_Exception e = true).
Proof.
unfold process_prediction. run_monad.
destruct (is_snore (threshold d) prediction); simpl;
  match goal with |- context [(?a >=? ?b)%Z] => destruct (a >=? b)%Z end;
  simpl;
  try (eexists; eexists; eexists; split; [reflexivity |]; split;
       [reflexivity | discriminate]);
  destruct (vibration_callback d) as [cb |]; simpl;
  try (eexists; exists 0%Z; eexists; split; [reflexivity |]; split;
       [reflexivity | discriminate]);
  match goal with |- context [call_callback env cb ?x] =>
    destruct (call_callback_outcome cb x) as [r [w' [Hc [Hr [_ He]]]]];
    rewrite Hc end;
  destruct r as [[] | e]; simpl.
- eexists. exists 0%Z. exists w'. split; [reflexivity |].
  split; [exact Hr | discriminate].
- eexists. eexists. exists w'. split; [reflexivity |].
  split; [exact Hr |]. intros e0 [= <-]. now apply He.
- eexists. exists 0%Z. exists w'. split; [reflexivity |].
  split; [exact Hr | discriminate].
- eexists. eexists. exists w'. split; [reflexivity |].
  split; [exact Hr |]. intros e0 [= <-]. now apply He.
Qed.

End Frame.

Section Survival.
Variable cfg : Config.
Variable env : Env.

Lemma same_settings_refl (d : Detector) : same_settings d d.
Proof. exists (audio_buffer d), (snore_count d). destruct d; reflexivity. Qed.

Lemma process_audio_chunk_frame (chunk : list npfloat) (d : Detector) (w : world) :
exists r n w',
  process_audio_chunk cfg env chunk (d, w) = (r, (set_snore_count n d, w')) /\
  reads w' = reads w /\
  (forall e, r = Raise e ->
             isinstance_Exception e = true \/ score_of cfg env d chunk = Raise e).
Proof.
unfold process_audio_chunk, predict, score_of. run_monad.
destruct (extract_features cfg env (pad_chunk d chunk)) as [f | e0]; simpl.
- destruct (model d f) as [p | e0]; simpl.
  + destruct (process_prediction_frame env p d
                {| trace := ModelPredict :: trace w; reads := reads w;
                   vibration_controller := vibration_controller w |})
      as [r [n [w' [Hrun [Hr He]]]]].
    rewrite Hrun. exists r, n, w'. split; [reflexivity |].
    split; [exact Hr |]. intros e Hraise. left. now apply He.
  + exists (Raise e0), (snore_count d). eexists.
    split; [destruct d; reflexivity |]. split; [reflexivity |].
    intros e [= <-]. now right.
- exists (Raise e0), (snore_count d), w.
  split; [destruct d; reflexivity |]. split; [reflexivity |].
  intros e [= <-]. now right.
Qed.

(** One turn of the loop under ordinary failures: it ends normally, has
  read the stream exactly once, and has kept the settings. *)
Lemma loop_iteration_contained (frame_count : nat) (d0 d : Detector) (w : world) :
ordinary_failures cfg env d0 ->
same_settings d0 d ->
exists frame_count' d' w',
  loop_iteration cfg env frame_count (d, w) = (Ret frame_count', (d', w')) /\
  same_settings d0 d' /\
  reads w' = S (reads w) /\
  (frame_count' = frame_count \/ frame_count' = S frame_count).
Proof.
intros [Hread Hscore] [b0 [n0 ->]].
unfold loop_iteration, loop_try, read_stream. run_monad.
destruct (stream_read env (reads w)) as [data | e] eqn:E; simpl.
- match goal with |- context [(?a >=? ?b)%Z] => destruct (a >=? b)%Z end.
  + match goal with |- context [process_audio_chunk cfg env ?c (?dd, ?ww)] =>
      destruct (process_audio_chunk_frame c dd ww)
        as [r [n [w' [Hrun [Hr He]]]]]; rewrite Hrun end.
    destruct r as [p | e]; simpl.
    * match goal with |- context [(?a =? ?b)%Z] => destruct (a =? b)%Z end;
        simpl; eexists; eexists; eexists;
        (split; [reflexivity |]); (split; [eexists; eexists; reflexivity |]);
        simpl; (split; [now rewrite Hr | now right]).
    * assert (Hexc : isinstance_Exception e = true).
      { destruct (He e eq_refl) as [H | H]; [exact H |].
        eapply Hscore. exact H. }
      rewrite Hexc. simpl. eexists. eexists. eexists.
      split; [reflexivity |]. split; [eexists; eexists; reflexivity |].
      simpl. split; [now rewrite Hr | now left].
  + simpl. eexists. eexists. eexists.
    split; [reflexivity |]. split; [eexists; eexists; reflexivity |].
    simpl. split; [reflexivity | now left].
- rewrite (Hread _ _ E). simpl. eexists. eexists. eexists.
  split; [reflexivity |]. split; [eexists; eexists; reflexivity |].
  simpl. split; [reflexivity | now left].
Qed.

Lemma detection_loop_runs_on (d0 : Detector) :
is_running d0 = true ->
ordinary_failures cfg env d0 ->
forall (fuel frame_count : nat) (d : Detector) (w : world),
  same_settings d0 d ->
  detection_loop cfg env fuel frame_count (d, w) = None.
Proof.
intros Hrun Hord. induction fuel as [| fuel IH]; intros fc d w Hsame.
- reflexivity.
- simpl.
  assert (Hr : is_running d = true).
  { destruct Hsame as [b [n ->]]. exact Hrun. }
  rewrite Hr.
  destruct (loop_iteration_contained fc d0 d w Hord Hsame)
    as [fc' [d' [w' [Hturn [Hsame' _]]]]].
  rewrite Hturn. apply IH. exact Hsame'.
Qed.

End Survival.

(** X1. Under the same condition a running session never ends by itself:
    whatever the number of turns allowed, the loop is still turning. *)
Theorem session_survives_failures (cfg : Config) (env : Env)
    (fuel frame_count : nat) (d : Detector) (w : world) :
  is_running d = true ->
  ordinary_failures cfg env d ->
  detection_loop cfg env fuel frame_count (d, w) = None.
Proof.
  intros Hrun Hord.
  apply (detection_loop_runs_on cfg env d Hrun Hord).
  apply same_settings_refl.
Qed.

Lemma example_block_failures (n : nat) (y : list npfloat) (e : exn) :
  Example.block n y = Raise e -> isinstance_Exception e = true.
Proof. destruct y; simpl; intros [= <-]; reflexivity. Qed.

Lemma failing_env_is_ordinary :
  ordinary_failures Example.cfg failing_env armed.
Proof.
  split.
  - intros k e. discriminate.
  - intros chunk e. unfold score_of, extract_features. simpl.
    destruct (Example.block 2 (pad_chunk armed chunk)) as [m1 | e1] eqn:E1;
      [| intros [= <-]; exact (example_block_failures _ _ _ E1)].
    destruct (Example.block 1 (pad_chunk armed chunk)) as [m2 | e2] eqn:E2;
      [| intros [= <-]; exact (example_block_failures _ _ _ E2)].
    destruct (concatenate0 m1 m2) as [c | e3] eqn:E3.
    + intros [= <-]. reflexivity.
    + unfold concatenate0 in E3. destruct (ncols m1 =? ncols m2); [discriminate |].
      injection E3 as <-. intros [= <-]. reflexivity.
Qed.

Lemma session_survives_failures_witness :
  detection_loop Example.cfg failing_env 25 0 (armed, initial_world) = None.
Proof.
  apply (session_survives_failures Example.cfg failing_env 25 0 armed initial_world).
  - reflexivity.
  - exact failing_env_is_ordinary.
Defined.

(** ** More on the trigger *)

Section Trigger.
Variable cfg : Config.
Variable env : Env.

Lemma spec_debounce_bound (threshold_count : Z) (positives : list bool) :
forall count : Z,
  (0 <= count < threshold_count)%Z ->
  let spec := spec_debounce threshold_count count positives in
  (threshold_count * Z.of_nat (list_sum (fst spec)) + snd spec
   <= count + Z.of_nat (length (filter (fun p => p) positives)))%Z /\
  (0 <= snd spec < threshold_count)%Z.
Proof.
induction positives as [| p rest IH]; intros count Hc.
- simpl. lia.
- cbv zeta. rewrite spec_debounce_cons by exact Hc. cbn [fst snd list_sum].
  pose proof (next_count_range threshold_count count p Hc) as Hn.
  destruct (IH _ Hn) as [Hb Hr]. cbv zeta in Hb, Hr.
  split; [| exact Hr].
  unfold next_count, fires in *.
  destruct p; simpl.
  + destruct (Z.eqb_spec (count + 1) threshold_count); simpl in *; lia.
  + simpl in *. lia.
Qed.

End Trigger.





(** X4. When the callback raises, line 152 is not reached: the alert has
    been attempted, the exception leaves [process_audio_chunk], and the
    counter stays at the threshold instead of going back to 0. *)
Theorem failed_alert_keeps_the_counter (cfg : Config) (env : Env) (d : Detector)
    (w : world) (cb : callback) (window : list npfloat) (score : npfloat)
    (e : exn) (w2 : world) :
  score_of cfg env d window = Ret score ->
  is_snore (threshold d) score = true ->
  (snore_count d + 1 >= snore_threshold_count d)%Z ->
  vibration_callback d = Some cb ->
  call_callback env cb (add_events [VibrationCallback; ModelPredict] w)
  = (Raise e, w2) ->
  process_audio_chunk cfg env window (d, w)
  = (Raise e, (set_snore_count (snore_count d + 1) d, w2)).
Proof.
  intros Hscore Hpos Hreach Hcb Hcall.
  unfold score_of in Hscore.
  unfold process_audio_chunk, predict. run_monad.
  destruct (extract_features cfg env (pad_chunk d window)) as [f | e0];
    [| discriminate].
  rewrite Hscore. simpl. unfold process_prediction. run_monad.
  rewrite Hpos. simpl.
  destruct (Z.geb_spec (snore_count d + 1) (snore_threshold_count d)); [| lia].
  rewrite Hcb. simpl. unfold add_events in Hcall. simpl in Hcall.
  rewrite Hcall. reflexivity.
Qed.

Lemma failed_alert_keeps_the_counter_witness :
  exists w2,
    process_audio_chunk Example.cfg Example.plain tenth (backwards, simulated_world)
    = (Raise (ValueError "sleep length must be non-negative"),
       (set_snore_count 3 backwards, w2)).
Proof.
  eexists.
  apply (failed_alert_keeps_the_counter Example.cfg Example.plain backwards
           simulated_world (trigger_vibration (-1) (8 # 10)) tenth (Fin (1 # 10)));
    try reflexivity.
  simpl. lia.
Defined.

(** ** The buffer and the windows cut from it *)

Lemma deque_extend_length {A} (maxlen : nat) (buf xs : list A) :
  length (deque_extend maxlen buf xs) = Nat.min (length buf + length xs) maxlen.
Proof.
  unfold deque_extend. rewrite length_skipn, length_app. lia.
Qed.

(** X5. The buffer is a ring of [maxlen] samples: extending it keeps the
    end of what was there followed by what arrives, drops samples only
    from the front and only when there are more than [maxlen], and a turn
    of the loop that has read [data] leaves exactly that buffer behind,
    whatever becomes of the window. *)
Theorem ring_buffer_keeps_the_latest (cfg : Config) (env : Env)
    (frame_count : nat) (d : Detector) (w : world) (data : list npfloat) :
  stream_read env (reads w) = Ret data ->
  let kept := deque_extend (audio_buffer_maxlen d) (audio_buffer d) data in
  length kept
  = Nat.min (length (audio_buffer d) + length data) (audio_buffer_maxlen d) /\
  (exists dropped,
      audio_buffer d ++ data = dropped ++ kept /\
      length dropped
      = length (audio_buffer d) + length data - audio_buffer_maxlen d) /\
  audio_buffer (fst (snd (loop_iteration cfg env frame_count (d, w)))) = kept.
Proof.
  intros Hread kept. split; [apply deque_extend_length |]. split.
  - exists (firstn (length (audio_buffer d ++ data) - audio_buffer_maxlen d)
                   (audio_buffer d ++ data)).
    split.
    + unfold kept, deque_extend. symmetry. apply firstn_skipn.
    + rewrite length_firstn, length_app. lia.
  - unfold loop_iteration, loop_try, read_stream. run_monad.
    rewrite Hread. simpl. fold kept.
    match goal with |- context [(?a >=? ?b)%Z] => destruct (a >=? b)%Z end;
      [| reflexivity].
    match goal with |- context [process_audio_chunk cfg env ?c (?dd, ?ww)] =>
      destruct (process_audio_chunk_frame cfg env c dd ww)
        as [r [n [w' [Hrun _]]]]; rewrite Hrun end.
    destruct r as [p | e]; simpl.
    + match goal with |- context [(?a =? ?b)%Z] => destruct (a =? b)%Z end;
        reflexivity.
    + destruct (isinstance_Exception e); reflexivity.
Qed.

Lemma ring_buffer_keeps_the_latest_witness :
  audio_buffer
    (fst (snd (loop_iteration Example.cfg failing_env 0
                 (set_audio_buffer (map (fun q => Fin (inject_Z q))
                                        [1; 2; 3; 4; 5; 6; 7; 8; 9; 10; 11; 12]%Z)
                    armed, initial_world))))
  = map (fun q => Fin (inject_Z q)) [3; 4; 5; 6; 7; 8; 9; 10; 11; 12]%Z
    ++ [zero; zero].
Proof.
  apply (ring_buffer_keeps_the_latest Example.cfg failing_env 0
           (set_audio_buffer (map (fun q => Fin (inject_Z q))
                                  [1; 2; 3; 4; 5; 6; 7; 8; 9; 10; 11; 12]%Z) armed)
           initial_world [zero; zero]).
  reflexivity.
Defined.

(** X6. Consecutive windows overlap: when the buffer already holds a full
    window and a read brings [h <= chunk_size] new samples, the next
    window is the previous one without its first [h] samples, followed by
    the new samples. *)
Theorem consecutive_windows_overlap (d : Detector) (data : list npfloat) :
  (0 < chunk_size d)%Z ->
  (chunk_size d <= Z.of_nat (audio_buffer_maxlen d))%Z ->
  (chunk_size d <= Z.of_nat (length (audio_buffer d)))%Z ->
  (Z.of_nat (length data) <= chunk_size d)%Z ->
  latest_window (refilled d data)
  = skipn (length data) (latest_window d) ++ data.
Proof.
  intros Hpos Hcap Hfull Hhop.
  unfold latest_window, refilled, deque_extend. simpl.
  set (b := audio_buffer d) in *. set (m := audio_buffer_maxlen d) in *.
  remember (Z.to_nat (chunk_size d)) as c eqn:Ec.
  replace (- chunk_size d)%Z with (- Z.of_nat c)%Z by lia.
  rewrite !py_slice_from_last; try lia.
  - rewrite length_skipn, length_app, !skipn_skipn.
    replace (length b + length data - (length b + length data - m) - c
             + (length b + length data - m))
      with (length b + length data - c) by lia.
    rewrite skipn_app.
    replace (length b + length data - c - length b) with 0 by lia.
    simpl. f_equal. f_equal. lia.
  - rewrite length_skipn, length_app. lia.
Qed.

Lemma consecutive_windows_overlap_witness :
  latest_window
    (refilled (set_audio_buffer [Fin 1; Fin 2; Fin 3; Fin 4; Fin 5]
                 (Example.detector Example.first_entry)) [Fin 6; Fin 7])
  = skipn 2 [Fin 2; Fin 3; Fin 4; Fin 5] ++ [Fin 6; Fin 7].
Proof.
  apply (consecutive_windows_overlap
           (set_audio_buffer [Fin 1; Fin 2; Fin 3; Fin 4; Fin 5]
              (Example.detector Example.first_entry)) [Fin 6; Fin 7]);
    simpl; lia.
Defined.

(** X7. A window longer than the buffer is never classified: when
    [chunk_size] exceeds the capacity of the buffer (a chunk duration
    above three seconds), a turn of the loop that reads successfully only
    stores the samples, and this stays so for the rest of the session. *)
Theorem oversized_window_is_never_classified (cfg : Config) (env : Env)
    (frame_count : nat) (d : Detector) (w : world) (data : list npfloat) :
  (Z.of_nat (audio_buffer_maxlen d) < chunk_size d)%Z ->
  stream_read env (reads w) = Ret data ->
  loop_iteration cfg env frame_count (d, w)
  = (Ret frame_count,
     (refilled d data,
      {| trace := Sleep (1 # 100) :: StreamRead (hop_size d) :: trace w;
         reads := S (reads w);
         vibration_controller := vibration_controller w |})) /\
  (Z.of_nat (audio_buffer_maxlen (refilled d data)) < chunk_size (refilled d data))%Z.
Proof.
  intros Hbig Hread. split; [| exact Hbig].
  unfold loop_iteration, loop_try, read_stream. run_monad.
  rewrite Hread. simpl.
  pose proof (deque_extend_length (audio_buffer_maxlen d) (audio_buffer d) data).
  match goal with |- context [(?a >=? ?b)%Z] =>
    destruct (Z.geb_spec a b) end; [lia | reflexivity].
Qed.

Lemma oversized_window_is_never_classified_witness :
  fst (loop_iteration Example.cfg Example.plain 0
         (set_audio_buffer (repeat zero 12)
            (set_is_running true
               {| model := Example.first_entry; chunk_duration := 4;
                  overlap := 1 # 2; vibration_callback := None;
                  threshold := Fin (1 # 2); chunk_size := 16; hop_size := 8;
                  audio_buffer := []; audio_buffer_maxlen := 12;
                  is_running := false; audio_stream := true;
                  pyaudio_instance := true; snore_count := 0;
                  snore_threshold_count := 3 |}), initial_world))
  = Ret 0.
Proof.
  match goal with |- fst (loop_iteration ?c ?e ?f (?d, ?w)) = _ =>
    destruct (oversized_window_is_never_classified c e f d w [zero; zero])
      as [H _] end.
  - simpl. lia.
  - reflexivity.
  - rewrite H. reflexivity.
Defined.

(** ** Ending a session *)

Lemma is_print_quiet (events : list event) :
  forallb is_print events = true ->
  forallb (fun ev => negb (is_stream_close ev)) events = true.
Proof.
  rewrite !forallb_forall. intros H e He. specialize (H e He).
  destruct e; simpl in *; congruence.
Qed.


Lemma interrupted_device_works : device_works interrupted.
Proof. repeat split. Qed.


(** ** What the loop prints *)

Ltac find_events :=
  first
    [ refine (ex_intro _ [] _); split; reflexivity
    | refine (ex_intro _ [_] _); split; reflexivity
    | refine (ex_intro _ [_; _] _); split; reflexivity
    | refine (ex_intro _ [_; _; _] _); split; reflexivity
    | refine (ex_intro _ [_; _; _; _] _); split; reflexivity
    | refine (ex_intro _ [_; _; _; _; _] _); split; reflexivity ].

(** The callback adds events of its own to the trace, none of them the
    notice of the loop. *)
Lemma call_callback_trace (env : Env) (cb : callback) (w : world) :
  exists events,
    trace (snd (call_callback env cb w)) = events ++ trace w /\
    forallb (fun e => negb (is_triggered_notice e)) events = true.
Proof.
  destruct cb as [| duration intensity]; simpl.
  - find_events.
  - unfold VibrationControl.vibrate, VibrationControl.self_controller,
      VibrationControl.stop, VibrationControl.mark_vibrating,
      VibrationControl.self_controller, time_sleep.
    destruct w as [tr n [c |]]; simpl; [| find_events].
    destruct c as [v pin [|] pwm | v port baud [|] | v]; simpl; run_monad;
      repeat match goal with
        | |- context [Qltb ?d 0] => destruct (Qltb d 0) eqn:?; simpl
        | |- context [pwm_ChangeDutyCycle env ?x] =>
            destruct (pwm_ChangeDutyCycle env x); simpl
        | |- context [serial_write env ?x] =>
            destruct (serial_write env x); simpl
        | |- context [if pwm then _ else _] => destruct pwm; simpl
        end;
      find_events.
Qed.

Lemma process_audio_chunk_trace (cfg : Config) (env : Env)
    (chunk : list npfloat) (d : Detector) (w : world) :
  exists events,
    trace (snd (snd (process_audio_chunk cfg env chunk (d, w))))
    = events ++ trace w /\
    forallb (fun e => negb (is_triggered_notice e)) events = true.
Proof.
  unfold process_audio_chunk, predict. run_monad.
  destruct (extract_features cfg env (pad_chunk d chunk)) as [f | e0]; simpl;
    [| find_events].
  destruct (model d f) as [p | e0]; simpl; [| find_events].
  unfold process_prediction. run_monad.
  destruct (is_snore (threshold d) p); simpl;
    match goal with |- context [(?a >=? ?b)%Z] => destruct (a >=? b)%Z end;
    simpl; try find_events;
    destruct (vibration_callback d) as [cb |]; simpl; try find_events;
    match goal with |- context [call_callback env cb ?x] =>
      destruct (call_callback_trace env cb x) as [evs [Htr Hq]];
      destruct (call_callback env cb x) as [[[] | e] w1] end;
    simpl in *; rewrite Htr;
    (exists (evs ++ [VibrationCallback; ModelPredict]);
     split; [now rewrite <- app_assoc |];
     rewrite forallb_app, Hq; reflexivity).
Qed.

(** X9. The loop never prints its "vibration triggered" notice when the
    threshold count is at least 1: the test [snore_count ==
    snore_threshold_count] of line 263 comes after [process_audio_chunk]
    has put the counter back to 0, so a turn that classifies a window,
    whether or not it fires the alert, adds the status line to the trace
    but not the notice. *)
Theorem triggered_notice_is_never_printed (cfg : Config) (env : Env)
    (frame_count : nat) (d : Detector) (w : world) (cb : callback)
    (data : list npfloat) (score : npfloat) :
  stream_read env (reads w) = Ret data ->
  (Z.of_nat (length (audio_buffer (refilled d data))) >= chunk_size d)%Z ->
  score_of cfg env (refilled d data) (latest_window (refilled d data)) = Ret score ->
  vibration_callback d = Some cb ->
  callback_returns cb w = true ->
  (0 <= snore_count d < snore_threshold_count d)%Z ->
  exists d' w' events,
    loop_iteration cfg env frame_count (d, w) = (Ret (S frame_count), (d', w')) /\
    trace w' = events ++ trace w /\
    forallb (fun e => negb (is_triggered_notice e)) events = true /\
    In (Print (msg_status (S frame_count) score
                 (is_snore (threshold d) score) (snore_count d')
                 (snore_threshold_count d)))
       events.
Proof.
  intros Hread Hlen Hscore Hcb Hret Hcount.
  assert (G : (Z.of_nat (length (deque_extend (audio_buffer_maxlen d)
                                   (audio_buffer d) data))
               >=? chunk_size d)%Z = true).
  { apply Z.geb_le. simpl in Hlen. lia. }
  set (w0 := {| trace := StreamRead (hop_size d) :: trace w;
                reads := S (reads w);
                vibration_controller := vibration_controller w |}).
  destruct (process_audio_chunk_step cfg env (refilled d data) w0 cb
              (latest_window (refilled d data)) score Hscore Hcb Hret Hcount)
    as [w1 [Hrun _]].
  destruct (process_audio_chunk_trace cfg env (latest_window (refilled d data))
              (refilled d data) w0) as [evs [Htr Hq]].
  rewrite Hrun in Htr. simpl in Htr.
  pose proof (next_count_range (snore_threshold_count d) (snore_count d)
                (is_snore (threshold d) score) Hcount) as Hrange.
  change (snore_threshold_count (refilled d data))
    with (snore_threshold_count d) in Hrun.
  change (snore_count (refilled d data)) with (snore_count d) in Hrun.
  change (threshold (refilled d data)) with (threshold d) in Hrun.
  set (nc := next_count (snore_threshold_count d) (snore_count d)
               (is_snore (threshold d) score)) in *.
  assert (Hneq : (nc =? snore_threshold_count d)%Z = false)
    by (apply Z.eqb_neq; lia).
  unfold loop_iteration, loop_try, read_stream. run_monad.
  rewrite Hread. simpl. rewrite G. fold (refilled d data). fold w0.
  rewrite Hrun. simpl. rewrite Hneq. simpl.
  eexists. eexists.
  exists ([Sleep (1 # 100);
           Print (msg_status (S frame_count) score
                    (is_snore (threshold d) score) nc (snore_threshold_count d))]
          ++ evs ++ [StreamRead (hop_size d)]).
  split; [reflexivity |]. split; [| split].
  - simpl. rewrite Htr, <- app_assoc. reflexivity.
  - simpl. rewrite forallb_app, Hq. reflexivity.
  - simpl. auto.
Qed.

Lemma triggered_notice_is_never_printed_witness :
  exists d' w',
    loop_iteration Example.cfg quiet_reads 0 (about_to_fire, initial_world)
    = (Ret 1, (d', w')) /\
    alerts w' = 1 /\
    forallb (fun e => negb (is_triggered_notice e)) (trace w') = true.
Proof.
  destruct (triggered_notice_is_never_printed Example.cfg quiet_reads 0
              about_to_fire initial_world vibration_alert [] (Fin (1 # 10)))
    as [d' [w' [events [Hrun [Htr [Hq _]]]]]];
    [reflexivity | simpl; lia | reflexivity | reflexivity | reflexivity
    | simpl; lia |].
  exists d', w'. split; [exact Hrun |].
  split.
  - assert (E : snd (snd (loop_iteration Example.cfg quiet_reads 0
                            (about_to_fire, initial_world))) = w')
      by (rewrite Hrun; reflexivity).
    rewrite <- E. reflexivity.
  - rewrite Htr, app_nil_r. exact Hq.
Defined.
